(** * Mesh gateway relay engine (gateway/rpi_gateway.py)

    A shallow embedding of the [MeshGateway] class: the serial read loop,
    the message dispatcher, the backend forwarder with its token map, and
    the command poller.  Python values are modelled by the JSON values the
    program handles; the serial port and the HTTP backend are an explicit
    [world] whose answers may depend on the whole history of effects. *)

From Stdlib Require Import String Ascii ZArith NArith List Lia Bool DecimalString.
Import ListNotations.
Open Scope list_scope.
Open Scope string_scope.
Open Scope Z_scope.
Set Warnings "-register-all".

(** ** Python values and the builtins the gateway calls *)

Module Py.

(** The values that [json.loads] produces and [json.dumps] consumes.
    [None] is [JNull].  A [str] is represented by its UTF-8 encoding, one
    [ascii] per byte; a float is represented by its [repr] literal
    (["21.5"], ["nan"], ["inf"], ["-inf"]).  A [dict] is an insertion-ordered
    association list with pairwise distinct keys. *)
Inductive json : Type :=
| JNull
| JBool (b : bool)
| JInt (z : Z)
| JFloat (repr : string)
| JStr (s : string)
| JArr (items : list json)
| JObj (fields : list (string * json)).

Definition dict (V : Type) : Type := list (string * V).

(** Exception classes that the gateway raises, catches or lets escape.
    All of them derive from [Exception]. *)
Inductive exn : Type :=
| RequestException
| SerialException
| JSONDecodeError
| UnicodeDecodeError
| AttributeError
| TypeError
| ValueError
| RecursionError.

Inductive outcome (A : Type) : Type :=
| Ok (a : A)
| Raised (e : exn).
Arguments Ok {A} a.
Arguments Raised {A} e.

(** *** dict operations *)

(** [d.get(k)] *)
Fixpoint dict_get {V : Type} (k : string) (d : dict V) : option V :=
  match d with
  | [] => None
  | (k', v) :: rest => if String.eqb k k' then Some v else dict_get k rest
  end.

(** [k in d] *)
Definition dict_mem {V : Type} (k : string) (d : dict V) : bool :=
  match dict_get k d with Some _ => true | None => false end.

(** [d[k] = v]: an existing key keeps its position, a new key goes last. *)
Fixpoint dict_set {V : Type} (k : string) (v : V) (d : dict V) : dict V :=
  match d with
  | [] => [(k, v)]
  | (k', v') :: rest =>
      if String.eqb k k' then (k', v) :: rest else (k', v') :: dict_set k v rest
  end.

(** [d.pop(k, None)], result discarded. *)
Definition dict_pop {V : Type} (k : string) (d : dict V) : dict V :=
  filter (fun kv => negb (String.eqb k (fst kv))) d.

(** [d.get(k)] on a dict of JSON values: a missing key gives [None]. *)
Definition get (k : string) (d : dict json) : json :=
  match dict_get k d with Some v => v | None => JNull end.

(** [d.get(k, default)] *)
Definition get_default (k : string) (default : json) (d : dict json) : json :=
  match dict_get k d with Some v => v | None => default end.

(** [v.get(k, default)] on an arbitrary value: only a dict has [get]. *)
Definition attr_get (v : json) (k : string) (default : json) : outcome json :=
  match v with
  | JObj d => Ok (get_default k default d)
  | _ => Raised AttributeError
  end.

(** [v == s] for a string literal [s]. *)
Definition eq_str (v : json) (s : string) : bool :=
  match v with JStr s' => String.eqb s' s | _ => false end.

(** *** Bytes and code points *)

Definition bytes_of (s : string) : list N := map N_of_ascii (list_ascii_of_string s).
Definition of_bytes (l : list N) : string := string_of_list_ascii (map ascii_of_N l).

Definition in_range (lo hi b : N) : bool := (N.leb lo b && N.leb b hi)%bool.
Definition cont (b : N) : bool := in_range 128 191 b.

(** Well-formed UTF-8 byte sequences (no overlong forms, no surrogates,
    nothing above U+10FFFF): where [bytes.decode("utf-8")] succeeds. *)
Fixpoint utf8_valid (l : list N) : bool :=
  match l with
  | [] => true
  | b0 :: r =>
      if N.ltb b0 128 then utf8_valid r
      else match r with
      | [] => false
      | b1 :: r1 =>
          if in_range 194 223 b0 then cont b1 && utf8_valid r1
          else match r1 with
          | [] => false
          | b2 :: r2 =>
              if N.eqb b0 224 then in_range 160 191 b1 && cont b2 && utf8_valid r2
              else if N.eqb b0 237 then in_range 128 159 b1 && cont b2 && utf8_valid r2
              else if in_range 225 239 b0 then cont b1 && cont b2 && utf8_valid r2
              else match r2 with
              | [] => false
              | b3 :: r3 =>
                  if N.eqb b0 240
                  then in_range 144 191 b1 && cont b2 && cont b3 && utf8_valid r3
                  else if in_range 241 243 b0
                  then cont b1 && cont b2 && cont b3 && utf8_valid r3
                  else if N.eqb b0 244
                  then in_range 128 143 b1 && cont b2 && cont b3 && utf8_valid r3
                  else false
              end
          end
      end
  end.

(** [b.decode("utf-8")] *)
Definition decode_utf8 (b : string) : outcome string :=
  if utf8_valid (bytes_of b) then Ok b else Raised UnicodeDecodeError.

(** The code points of an encoded [str], in order. *)
Fixpoint code_points (l : list N) : list N :=
  match l with
  | [] => []
  | b0 :: r =>
      if N.ltb b0 192 then b0 :: code_points r
      else match r with
      | [] => [b0]
      | b1 :: r1 =>
          if N.ltb b0 224
          then (N.land b0 31 * 64 + N.land b1 63)%N :: code_points r1
          else match r1 with
          | [] => [b0; b1]
          | b2 :: r2 =>
              if N.ltb b0 240
              then (N.land b0 15 * 4096 + N.land b1 63 * 64 + N.land b2 63)%N
                   :: code_points r2
              else match r2 with
              | [] => [b0; b1; b2]
              | b3 :: r3 =>
                  (N.land b0 7 * 262144 + N.land b1 63 * 4096
                   + N.land b2 63 * 64 + N.land b3 63)%N :: code_points r3
              end
          end
      end
  end.

(** The encoding of one code point. *)
Definition encode_cp (c : N) : list N :=
  (if c <? 128 then [c]
   else if c <? 2048 then [192 + c / 64; 128 + c mod 64]
   else if c <? 65536 then [224 + c / 4096; 128 + (c / 64) mod 64; 128 + c mod 64]
   else [240 + c / 262144; 128 + (c / 4096) mod 64; 128 + (c / 64) mod 64;
         128 + c mod 64])%N.

(** [str.isspace] on one code point. *)
Definition is_space (c : N) : bool :=
  (in_range 9 13 c || in_range 28 32 c || N.eqb c 133 || N.eqb c 160
   || N.eqb c 5760 || in_range 8192 8202 c || N.eqb c 8232 || N.eqb c 8233
   || N.eqb c 8239 || N.eqb c 8287 || N.eqb c 12288)%bool.

Fixpoint lstrip_cps (l : list N) : list N :=
  match l with
  | c :: r => if is_space c then lstrip_cps r else l
  | [] => []
  end.

(** [s.strip()] *)
Definition strip (s : string) : string :=
  of_bytes (flat_map encode_cp
              (rev (lstrip_cps (rev (lstrip_cps (code_points (bytes_of s))))))).

(** [s.rstrip("/")] *)
Fixpoint lstrip_slash (l : list ascii) : list ascii :=
  match l with
  | c :: r => if Ascii.eqb c "/"%char then lstrip_slash r else l
  | [] => []
  end.

Definition rstrip_slash (s : string) : string :=
  string_of_list_ascii (rev (lstrip_slash (rev (list_ascii_of_string s)))).

(** *** Integers and text *)

(** [str(z)] for an [int]. *)
Definition str_of_int (z : Z) : string := NilZero.string_of_int (Z.to_int z).

(** The code points that [int] skips at either end of its argument: the
    white space of the C parser, and every Unicode space outside ASCII.
    The separators 28 to 31, which [str.strip] removes, are not among
    them. *)
Definition int_space (c : N) : bool :=
  (in_range 9 13 c || N.eqb c 32 || (N.leb 128 c && is_space c))%bool.

Fixpoint lstrip_int (l : list N) : list N :=
  match l with
  | c :: r => if int_space c then lstrip_int r else l
  | [] => []
  end.

(** The runs of decimal digits (category Nd, Unicode 14 as in CPython
    3.11), by first and last code point.  Every run holds the digits zero
    to nine in order; the mathematical run at 120782 holds them five times
    over. *)
Definition decimal_runs : list (N * N) :=
  [(48, 57); (1632, 1641); (1776, 1785); (1984, 1993); (2406, 2415);
   (2534, 2543); (2662, 2671); (2790, 2799); (2918, 2927); (3046, 3055);
   (3174, 3183); (3302, 3311); (3430, 3439); (3558, 3567); (3664, 3673);
   (3792, 3801); (3872, 3881); (4160, 4169); (4240, 4249); (6112, 6121);
   (6160, 6169); (6470, 6479); (6608, 6617); (6784, 6793); (6800, 6809);
   (6992, 7001); (7088, 7097); (7232, 7241); (7248, 7257); (42528, 42537);
   (43216, 43225); (43264, 43273); (43472, 43481); (43504, 43513);
   (43600, 43609); (44016, 44025); (65296, 65305); (66720, 66729);
   (68912, 68921); (69734, 69743); (69872, 69881); (69942, 69951);
   (70096, 70105); (70384, 70393); (70736, 70745); (70864, 70873);
   (71248, 71257); (71360, 71369); (71472, 71481); (71904, 71913);
   (72016, 72025); (72784, 72793); (73040, 73049); (73120, 73129);
   (92768, 92777); (92864, 92873); (93008, 93017); (120782, 120831);
   (123200, 123209); (123632, 123641); (125264, 125273); (130032, 130041)]%N.

(** [Py_UNICODE_TODECIMAL] *)
Definition digit_val (c : N) : option Z :=
  match find (fun r => in_range (fst r) (snd r) c) decimal_runs with
  | Some r => Some (Z.of_N ((c - fst r) mod 10))
  | None => None
  end.

(** [sys.get_int_max_str_digits()] as the interpreter starts. *)
Definition int_max_str_digits : N := 4300.

(** Digits with single underscores between them; [prev] tells whether the
    previous character was a digit, [count] how many digits were read. *)
Fixpoint digits (l : list N) (prev : bool) (acc : Z) (count : N) : option Z :=
  match l with
  | [] => if (prev && N.leb count int_max_str_digits)%bool then Some acc else None
  | c :: r =>
      match digit_val c with
      | Some d => digits r true (10 * acc + d) (N.succ count)
      | None =>
          if (N.eqb c 95 && prev)%bool then digits r false acc count else None
      end
  end.

(** [int(s)] for a [str] in base ten: surrounding white space, an optional
    sign, decimal digits of any script.  [None] is [ValueError], which is
    also raised for more than [int_max_str_digits] digits. *)
Definition int_of_str (s : string) : option Z :=
  match rev (lstrip_int (rev (lstrip_int (code_points (bytes_of s))))) with
  | [] => None
  | c :: r =>
      if N.eqb c 45 then option_map Z.opp (digits r false 0 0)
      else if N.eqb c 43 then digits r false 0 0
      else digits (c :: r) false 0 0
  end.

(** *** json.dumps with its defaults *)

Definition hex_digit (n : N) : ascii :=
  ascii_of_N (if N.ltb n 10 then 48 + n else 87 + n).

Definition hex4 (c : N) : string :=
  string_of_list_ascii
    [hex_digit (c / 4096 mod 16); hex_digit (c / 256 mod 16);
     hex_digit (c / 16 mod 16); hex_digit (c mod 16)]%N.

(** One character under [ensure_ascii=True]. *)
Definition escape_cp (c : N) : string :=
  if N.eqb c 34 then "\" ++ String (ascii_of_N 34) ""
  else if N.eqb c 92 then "\\"
  else if N.eqb c 10 then "\n"
  else if N.eqb c 13 then "\r"
  else if N.eqb c 9 then "\t"
  else if N.eqb c 8 then "\b"
  else if N.eqb c 12 then "\f"
  else if in_range 32 126 c then String (ascii_of_N c) ""
  else if N.ltb c 65536 then "\u" ++ hex4 c
  else "\u" ++ hex4 (55296 + (c - 65536) / 1024)%N
       ++ "\u" ++ hex4 (56320 + (c - 65536) mod 1024)%N.

Definition quote : string := String (ascii_of_N 34) "".

(** [json.encoder.encode_basestring_ascii] *)
Definition encode_basestring_ascii (s : string) : string :=
  quote ++ String.concat "" (map escape_cp (code_points (bytes_of s))) ++ quote.

Definition float_literal (r : string) : string :=
  if String.eqb r "nan" then "NaN"
  else if String.eqb r "inf" then "Infinity"
  else if String.eqb r "-inf" then "-Infinity"
  else r.

(** [json.dumps(v)]: item separator [", "], key separator [": "]. *)
Fixpoint dumps (v : json) : string :=
  match v with
  | JNull => "null"
  | JBool true => "true"
  | JBool false => "false"
  | JInt z => str_of_int z
  | JFloat r => float_literal r
  | JStr s => encode_basestring_ascii s
  | JArr items => "[" ++ String.concat ", " (map dumps items) ++ "]"
  | JObj fields =>
      "{" ++ String.concat ", "
               (map (fun kv => encode_basestring_ascii (fst kv) ++ ": " ++ dumps (snd kv))
                    fields) ++ "}"
  end.

(** Iteration [for x in v]: a list yields its items, a dict its keys, a
    [str] its characters; anything else raises [TypeError]. *)
Definition iter (v : json) : outcome (list json) :=
  match v with
  | JArr items => Ok items
  | JObj fields => Ok (map (fun kv => JStr (fst kv)) fields)
  | JStr s => Ok (map (fun c => JStr (of_bytes (encode_cp c))) (code_points (bytes_of s)))
  | _ => Raised TypeError
  end.

End Py.
Import Py.

(** ** Gateway state and effects *)

Inductive level : Type := DEBUG | INFO | WARNING | ERROR.

(** The calls to [logger], by call site, with the values they format. *)
Inductive logmsg : Type :=
| SerialConnected (port : string) (baud : Z)
| SerialConnectionFailed
| SerialDisconnected
| NoTokenRegistering (node_id : json)
| MetricsSent (node_id : json)
| InvalidToken (node_id : json)
| BackendError (status : Z)
| HTTPError
| NodeNotRegistered (node_id : json)
| NodeInfo (system : json)
| CommandPollFailed
| CommandSent (node_id : Z) (cmd_type : json)
| FailedToSendCommand
| NonJSON (line : string)
| UnicodeError
| SerialError
| ReaderError
| MetricsFrom (from_node temperature humidity : json)
| NodeConnected (node_id total : json)
| NodeDisconnected (node_id total : json)
| Heartbeat (nodes heap : json)
| BridgeReady (firmware node_id : json)
| BridgeBooting (msg : json)
| CommandAcknowledged (cmd : json)
| BridgeError (msg : json)
| UnknownMessageType (msg_type : json)
| Rule
| GatewayStarting
| SerialIs (port : string)
| BackendIs (url : string)
| InitialSerialFailed
| ReceivedShutdownSignal
| GatewayStatistics
| Uptime (seconds : Z)
| MessagesReceived (n : Z)
| SentToBackend (n : Z)
| CommandsToMesh (n : Z)
| Errors (n : Z).

(** Everything the gateway does to the outside, in program order. *)
Inductive event : Type :=
| Log (lvl : level) (m : logmsg)
| Post (url : string) (headers : dict string) (body : json) (timeout : Z)
| Get (url : string) (headers : dict string) (timeout : Z)
| OpenPort (port : string) (baudrate : Z) (timeout : Z)
| ClosePort
| ReadLine
| Write (data : string)
| Sleep (seconds : Z)
| Now.

(** A [requests.Response]: the status code and what [response.json()] does. *)
Record Response : Type := { status_code : Z; json_ : outcome json }.

(** The serial driver, the HTTP client and the clock.  Each answer is a
    function of the history of effects up to and including the call it
    answers, so the same request may be answered differently each time. *)
Record world : Type := {
  post_answer : list event -> outcome Z;
  get_answer : list event -> outcome Response;
  open_answer : list event -> outcome unit;
  readline_answer : list event -> outcome string;
  write_answer : list event -> outcome unit;
  clock : list event -> Z
}.

(** A [serial.Serial] object. *)
Record Serial : Type := { port : string; baudrate : Z; timeout : Z; is_open : bool }.

Record Stats : Type := {
  messages_received : Z;
  messages_sent_to_backend : Z;
  commands_sent_to_mesh : Z;
  errors : Z;
  start_time : option Z
}.

(** The attributes of a [MeshGateway] instance; [trace] is the record of
    its effects so far and is not a Python attribute. *)
Record MeshGateway : Type := {
  serial_port : string;
  baud_rate : Z;
  backend_url : string;
  gateway_token : string;
  serial : option Serial;
  running : bool;
  buffer : list json;
  node_tokens : dict string;
  stats : Stats;
  trace : list event
}.

Definition DEFAULT_SERIAL_PORT : string := "/dev/ttyUSB0".
Definition DEFAULT_BAUD_RATE : Z := 115200.
Definition DEFAULT_BACKEND_URL : string := "https://chnu-iot.com".
Definition COMMAND_POLL_INTERVAL : Z := 5.
Definition RECONNECT_DELAY : Z := 5.
Definition MAX_BUFFER_SIZE : Z := 1000.

Definition with_serial (v : option Serial) (g : MeshGateway) : MeshGateway :=
  {| serial_port := serial_port g; baud_rate := baud_rate g;
     backend_url := backend_url g; gateway_token := gateway_token g;
     serial := v; running := running g; buffer := buffer g;
     node_tokens := node_tokens g; stats := stats g; trace := trace g |}.

Definition with_running (v : bool) (g : MeshGateway) : MeshGateway :=
  {| serial_port := serial_port g; baud_rate := baud_rate g;
     backend_url := backend_url g; gateway_token := gateway_token g;
     serial := serial g; running := v; buffer := buffer g;
     node_tokens := node_tokens g; stats := stats g; trace := trace g |}.

Definition with_node_tokens (v : dict string) (g : MeshGateway) : MeshGateway :=
  {| serial_port := serial_port g; baud_rate := baud_rate g;
     backend_url := backend_url g; gateway_token := gateway_token g;
     serial := serial g; running := running g; buffer := buffer g;
     node_tokens := v; stats := stats g; trace := trace g |}.

Definition with_stats (v : Stats) (g : MeshGateway) : MeshGateway :=
  {| serial_port := serial_port g; baud_rate := baud_rate g;
     backend_url := backend_url g; gateway_token := gateway_token g;
     serial := serial g; running := running g; buffer := buffer g;
     node_tokens := node_tokens g; stats := v; trace := trace g |}.

Definition with_trace (v : list event) (g : MeshGateway) : MeshGateway :=
  {| serial_port := serial_port g; baud_rate := baud_rate g;
     backend_url := backend_url g; gateway_token := gateway_token g;
     serial := serial g; running := running g; buffer := buffer g;
     node_tokens := node_tokens g; stats := stats g; trace := v |}.

Definition count_received (s : Stats) : Stats :=
  {| messages_received := messages_received s + 1;
     messages_sent_to_backend := messages_sent_to_backend s;
     commands_sent_to_mesh := commands_sent_to_mesh s;
     errors := errors s; start_time := start_time s |}.

Definition count_sent (s : Stats) : Stats :=
  {| messages_received := messages_received s;
     messages_sent_to_backend := messages_sent_to_backend s + 1;
     commands_sent_to_mesh := commands_sent_to_mesh s;
     errors := errors s; start_time := start_time s |}.

Definition count_command (s : Stats) : Stats :=
  {| messages_received := messages_received s;
     messages_sent_to_backend := messages_sent_to_backend s;
     commands_sent_to_mesh := commands_sent_to_mesh s + 1;
     errors := errors s; start_time := start_time s |}.

Definition count_error (s : Stats) : Stats :=
  {| messages_received := messages_received s;
     messages_sent_to_backend := messages_sent_to_backend s;
     commands_sent_to_mesh := commands_sent_to_mesh s;
     errors := errors s + 1; start_time := start_time s |}.

Definition set_start_time (t : Z) (s : Stats) : Stats :=
  {| messages_received := messages_received s;
     messages_sent_to_backend := messages_sent_to_backend s;
     commands_sent_to_mesh := commands_sent_to_mesh s;
     errors := errors s; start_time := Some t |}.

(** [MeshGateway.__init__] *)
Definition init (serial_port : string) (baud_rate : Z)
    (backend_url gateway_token : string) : MeshGateway :=
  {| serial_port := serial_port; baud_rate := baud_rate;
     backend_url := rstrip_slash backend_url; gateway_token := gateway_token;
     serial := None; running := false; buffer := [];
     node_tokens := [];
     stats := {| messages_received := 0; messages_sent_to_backend := 0;
                 commands_sent_to_mesh := 0; errors := 0; start_time := None |};
     trace := [] |}.

(** *** Computations on the gateway: state passing with exceptions

    A method body is a function from the instance to an outcome and the
    instance afterwards; what was mutated before an exception stays
    mutated. *)

Definition M (A : Type) : Type := MeshGateway -> outcome A * MeshGateway.

Definition ret {A : Type} (a : A) : M A := fun g => (Ok a, g).

Definition bind {A B : Type} (m : M A) (k : A -> M B) : M B :=
  fun g => match m g with
           | (Ok a, g') => k a g'
           | (Raised e, g') => (Raised e, g')
           end.

Definition raise {A : Type} (e : exn) : M A := fun g => (Raised e, g).

Definition lift {A : Type} (o : outcome A) : M A := fun g => (o, g).

Definition get_self : M MeshGateway := fun g => (Ok g, g).

Definition modify (f : MeshGateway -> MeshGateway) : M unit := fun g => (Ok tt, f g).

(** [try: body / except ...]: [handler e] is the clause that matches [e]. *)
Definition try_except {A : Type} (body : M A) (handler : exn -> option (M A)) : M A :=
  fun g => match body g with
           | (Ok a, g') => (Ok a, g')
           | (Raised e, g') =>
               match handler e with
               | Some h => h g'
               | None => (Raised e, g')
               end
           end.

Declare Scope gw_scope.
Delimit Scope gw_scope with gw.
Notation "x <- m ;; k" := (bind m (fun x => k))
  (at level 100, m at next level, right associativity) : gw_scope.
Notation "m ;; k" := (bind m (fun _ => k))
  (at level 100, right associativity) : gw_scope.
Open Scope gw_scope.

Fixpoint for_each {X : Type} (l : list X) (body : X -> M unit) : M unit :=
  match l with
  | [] => ret tt
  | x :: rest => body x ;; for_each rest body
  end.

Definition emit (e : event) : M unit :=
  modify (fun g => with_trace (trace g ++ [e])%list g).

Definition log (lvl : level) (m : logmsg) : M unit := emit (Log lvl m).

Definition sleep (seconds : Z) : M unit := emit (Sleep seconds).

Definition update_stats (f : Stats -> Stats) : M unit :=
  modify (fun g => with_stats (f (stats g)) g).

(** [not token] for a token that is a [str] or [None]. *)
Definition falsy (token : option string) : bool :=
  match token with
  | None => true
  | Some s => String.eqb s ""
  end.

(** [not self.serial or not self.serial.is_open] *)
Definition serial_closed (g : MeshGateway) : bool :=
  match serial g with
  | None => true
  | Some s => negb (is_open s)
  end.

(** Sequencing of pure steps that may raise. *)
Definition obind {A B : Type} (o : outcome A) (k : A -> outcome B) : outcome B :=
  match o with
  | Ok a => k a
  | Raised e => Raised e
  end.
Notation "x <-? o ;; k" := (obind o (fun x => k))
  (at level 100, o at next level, right associativity) : gw_scope.

Definition newline : string := String (ascii_of_N 10) "".

(** ** The methods of [MeshGateway] *)

(** [transform_metrics]: it reads nothing of [self]. *)
Definition transform_metrics (data : dict json) : outcome (dict json) :=
  let payload :=
    [("node_name", get_default "node_name" (JStr "Unknown") data);
     ("temperature", get "temperature" data);
     ("humidity", get "humidity" data);
     ("dht_enabled", get_default "dht_enabled" (JBool true) data)] in
  let payload :=
    if dict_mem "system" data
    then dict_set "system" (get "system" data) payload
    else payload in
  payload <-? (if dict_mem "mesh" data
               then rssi <-? attr_get (get "mesh" data) "rssi" (JInt 0) ;;
                    Ok (dict_set "current_wifi"
                          (JObj [("ssid", JStr "mesh_network");
                                 ("rssi", rssi);
                                 ("bssid", JStr "");
                                 ("ip", JStr "");
                                 ("channel", JInt 6)]) payload)
               else Ok payload) ;;
  node_count <-? attr_get (get_default "mesh" (JObj []) data) "node_count" (JInt 0) ;;
  Ok (dict_set "mesh_status"
        (JObj [("enabled", JBool true);
               ("running", JBool true);
               ("node_id", get_default "node_id" (JInt 0) data);
               ("node_count", node_count)]) payload).

(** [register_node] *)
Definition register_node (node_id : json) (data : dict json) : M (option string) :=
  log WARNING (NodeNotRegistered node_id) ;;
  log INFO (NodeInfo (get_default "system" (JObj []) data)) ;;
  ret None.

Section Gateway.

(** [json.loads] on a [str], and [repr] of a list or dict: library
    functions whose full definitions are outside the program. *)
Variable json_loads : string -> outcome json.
Variable py_repr : json -> string.
Variable w : world.

(** [str(v)] *)
Definition str (v : json) : string :=
  match v with
  | JNull => "None"
  | JBool true => "True"
  | JBool false => "False"
  | JInt z => str_of_int z
  | JFloat r => r
  | JStr s => s
  | JArr _ | JObj _ => py_repr v
  end.

(** [int(s)] *)
Definition int (s : string) : M Z :=
  match int_of_str s with
  | Some z => ret z
  | None => raise ValueError
  end.

Definition requests_post (url : string) (payload : json) (headers : dict string)
    (timeout : Z) : M Z :=
  emit (Post url headers payload timeout) ;;
  g <- get_self ;;
  lift (post_answer w (trace g)).

Definition requests_get (url : string) (headers : dict string) (timeout : Z)
    : M Response :=
  emit (Get url headers timeout) ;;
  g <- get_self ;;
  lift (get_answer w (trace g)).

Definition serial_readline : M string :=
  emit ReadLine ;;
  g <- get_self ;;
  lift (readline_answer w (trace g)).

Definition serial_write (data : string) : M unit :=
  emit (Write data) ;;
  g <- get_self ;;
  lift (write_answer w (trace g)).

Definition now : M Z :=
  emit Now ;;
  g <- get_self ;;
  ret (clock w (trace g)).

(** [connect_serial] *)
Definition connect_serial : M bool :=
  try_except
    (g <- get_self ;;
     emit (OpenPort (serial_port g) (baud_rate g) 1) ;;
     h <- get_self ;;
     lift (open_answer w (trace h)) ;;
     modify (with_serial (Some {| port := serial_port g; baudrate := baud_rate g;
                                  timeout := 1; is_open := true |})) ;;
     log INFO (SerialConnected (serial_port g) (baud_rate g)) ;;
     ret true)
    (fun e => match e with
              | SerialException => Some (log ERROR SerialConnectionFailed ;; ret false)
              | _ => None
              end).

(** [disconnect_serial] *)
Definition disconnect_serial : M unit :=
  g <- get_self ;;
  match serial g with
  | Some s =>
      if is_open s
      then emit ClosePort ;;
           modify (with_serial (Some {| port := port s; baudrate := baudrate s;
                                        timeout := timeout s; is_open := false |})) ;;
           log INFO SerialDisconnected
      else ret tt
  | None => ret tt
  end.

(** [send_to_backend] *)
Definition send_to_backend (node_id : json) (data : dict json) : M bool :=
  try_except
    (g <- get_self ;;
     let token := dict_get (str node_id) (node_tokens g) in
     token <- (if falsy token
               then log WARNING (NoTokenRegistering node_id) ;;
                    token <- register_node node_id data ;;
                    ret (if falsy token then None else token)
               else ret token) ;;
     match token with
     | None => ret false
     | Some token =>
         payload <- lift (transform_metrics data) ;;
         let url := backend_url g ++ "/api/v1/metrics" in
         let headers := [("Content-Type", "application/json");
                         ("X-Device-Token", token)] in
         status <- requests_post url (JObj payload) headers 10 ;;
         if status =? 200
         then update_stats count_sent ;;
              log DEBUG (MetricsSent node_id) ;;
              ret true
         else if status =? 401
         then log WARNING (InvalidToken node_id) ;;
              modify (fun g => with_node_tokens
                                 (dict_pop (str node_id) (node_tokens g)) g) ;;
              ret false
         else log ERROR (BackendError status) ;;
              ret false
     end)
    (fun e => match e with
              | RequestException =>
                  Some (log ERROR HTTPError ;; update_stats count_error ;; ret false)
              | _ => None
              end).

(** [send_command_to_mesh] *)
Definition send_command_to_mesh (node_id : Z) (command : json) : M unit :=
  g <- get_self ;;
  if serial_closed g then ret tt
  else
    try_except
      (cmd <- lift (attr_get command "type" JNull) ;;
       value <- lift (attr_get command "payload" JNull) ;;
       cmd_id <- lift (attr_get command "id" JNull) ;;
       let mesh_cmd :=
         JObj [("type", JStr "send");
               ("target", JInt node_id);
               ("data", JObj [("cmd", cmd); ("value", value); ("cmd_id", cmd_id)])] in
       let line := dumps mesh_cmd ++ newline in
       serial_write line ;;
       update_stats count_command ;;
       cmd_type <- lift (attr_get command "type" JNull) ;;
       log INFO (CommandSent node_id cmd_type))
      (fun _ => Some (log ERROR FailedToSendCommand)).

(** The body of the [for node_id, token] loop of [poll_commands]. *)
Definition poll_node (kv : string * string) : M unit :=
  let (node_id, token) := kv in
  try_except
    (g <- get_self ;;
     let url := backend_url g ++ "/api/v1/devices/commands/pending" in
     let headers := [("Authorization", "Bearer " ++ gateway_token g);
                     ("X-Device-Token", token)] in
     response <- requests_get url headers 5 ;;
     if status_code response =? 200
     then commands <- lift (json_ response) ;;
          commands <- lift (iter commands) ;;
          for_each commands
            (fun cmd => target <- int node_id ;; send_command_to_mesh target cmd)
     else ret tt)
    (fun e => match e with
              | RequestException => Some (log DEBUG CommandPollFailed)
              | _ => None
              end).

(** [poll_commands] *)
Definition poll_commands : M unit :=
  g <- get_self ;;
  for_each (node_tokens g) poll_node.

(** [process_message] *)
Definition process_message (msg : json) : M unit :=
  match msg with
  | JObj m =>
      let msg_type := get "type" m in
      update_stats count_received ;;
      if eq_str msg_type "mesh_data" then
        let from_node := get "from" m in
        match get_default "data" (JObj []) m with
        | JObj data =>
            if eq_str (get "msg_type" data) "metrics"
            then log INFO (MetricsFrom from_node (get "temperature" data)
                             (get "humidity" data)) ;;
                 send_to_backend from_node data ;;
                 ret tt
            else ret tt
        | _ => ret tt
        end
      else if eq_str msg_type "node_connected" then
        log INFO (NodeConnected (get "node_id" m) (get "total_nodes" m))
      else if eq_str msg_type "node_disconnected" then
        log WARNING (NodeDisconnected (get "node_id" m) (get "total_nodes" m))
      else if eq_str msg_type "heartbeat" then
        log DEBUG (Heartbeat (get_default "node_count" (JInt 0) m)
                     (get_default "free_heap" (JInt 0) m))
      else if eq_str msg_type "ready" then
        log INFO (BridgeReady (get "firmware" m) (get "node_id" m))
      else if eq_str msg_type "boot" then
        log INFO (BridgeBooting (get "msg" m))
      else if eq_str msg_type "ack" then
        log DEBUG (CommandAcknowledged (get "cmd" m))
      else if eq_str msg_type "error" then
        log ERROR (BridgeError (get "msg" m))
      else
        log DEBUG (UnknownMessageType msg_type)
  | _ => raise AttributeError
  end.

(** The inner [try] of [read_serial]: decode one non-empty raw line and
    dispatch it. *)
Definition decode_and_dispatch (raw : string) : M unit :=
  try_except
    (line <- lift (decode_utf8 raw) ;;
     let line := strip line in
     if String.eqb line "" then ret tt
     else data <- lift (json_loads line) ;;
          process_message data)
    (fun e => match e with
              | JSONDecodeError => Some (log DEBUG (NonJSON (strip raw)))
              | UnicodeDecodeError => Some (log DEBUG UnicodeError)
              | _ => None
              end).

(** One pass through the body of the [while self.running] loop of
    [read_serial]. *)
Definition read_serial_once : M unit :=
  try_except
    (g <- get_self ;;
     if serial_closed g
     then sleep RECONNECT_DELAY ;;
          connect_serial ;;
          ret tt
     else line <- serial_readline ;;
          if String.eqb line "" then ret tt
          else decode_and_dispatch line)
    (fun e => match e with
              | SerialException =>
                  Some (log ERROR SerialError ;;
                        disconnect_serial ;;
                        sleep RECONNECT_DELAY)
              | _ => Some (log ERROR ReaderError ;; sleep 1)
              end).

(** [read_serial], for at most [fuel] passes: [true] when the loop has
    ended because [running] is false, [false] when the passes are used up. *)
Fixpoint read_serial (fuel : nat) : M bool :=
  match fuel with
  | O => g <- get_self ;; ret (negb (running g))
  | S n =>
      g <- get_self ;;
      if running g then read_serial_once ;; read_serial n else ret true
  end.

(** One pass through the loop of [command_poller]. *)
Definition command_poller_once : M unit :=
  sleep COMMAND_POLL_INTERVAL ;;
  g <- get_self ;;
  match node_tokens g with
  | [] => ret tt
  | _ :: _ => poll_commands
  end.

(** [command_poller], for at most [fuel] passes, with the result read as
    for [read_serial]. *)
Fixpoint command_poller (fuel : nat) : M bool :=
  match fuel with
  | O => g <- get_self ;; ret (negb (running g))
  | S n =>
      g <- get_self ;;
      if running g then command_poller_once ;; command_poller n else ret true
  end.

(** [print_stats] *)
Definition print_stats : M unit :=
  t <- now ;;
  g <- get_self ;;
  match start_time (stats g) with
  | None => raise TypeError
  | Some t0 =>
      log INFO Rule ;;
      log INFO GatewayStatistics ;;
      log INFO (Uptime (t - t0)) ;;
      log INFO (MessagesReceived (messages_received (stats g))) ;;
      log INFO (SentToBackend (messages_sent_to_backend (stats g))) ;;
      log INFO (CommandsToMesh (commands_sent_to_mesh (stats g))) ;;
      log INFO (Errors (errors (stats g))) ;;
      log INFO Rule
  end.

(** [run] up to the start of the poller thread. *)
Definition run_begin : M unit :=
  modify (with_running true) ;;
  t <- now ;;
  update_stats (set_start_time t) ;;
  g <- get_self ;;
  log INFO Rule ;;
  log INFO GatewayStarting ;;
  log INFO (SerialIs (serial_port g)) ;;
  log INFO (BackendIs (backend_url g)) ;;
  log INFO Rule ;;
  ok <- connect_serial ;;
  if ok then ret tt else log ERROR InitialSerialFailed.

(** The [finally] block of [run]. *)
Definition run_end : M unit :=
  modify (with_running false) ;;
  disconnect_serial ;;
  print_stats.

(** [signal_handler] of [main]. *)
Definition signal_handler : M unit :=
  log INFO ReceivedShutdownSignal ;;
  modify (with_running false).

(** *** Executions

    The two flows of control, the foreground read loop and the poller
    thread, interleave at the granularity of the operations below. *)
Inductive op : Type :=
| RunBegin
| RunEnd
| Signal
| ConnectSerial
| DisconnectSerial
| ReadSerialOnce
| CommandPollerOnce
| ProcessMessage (msg : json)
| SendToBackend (node_id : json) (data : dict json)
| RegisterNode (node_id : json) (data : dict json)
| PollCommands
| SendCommandToMesh (node_id : Z) (command : json).

Definition perform (o : op) (g : MeshGateway) : MeshGateway :=
  match o with
  | RunBegin => snd (run_begin g)
  | RunEnd => snd (run_end g)
  | Signal => snd (signal_handler g)
  | ConnectSerial => snd (connect_serial g)
  | DisconnectSerial => snd (disconnect_serial g)
  | ReadSerialOnce => snd (read_serial_once g)
  | CommandPollerOnce => snd (command_poller_once g)
  | ProcessMessage msg => snd (process_message msg g)
  | SendToBackend node_id data => snd (send_to_backend node_id data g)
  | RegisterNode node_id data => snd (register_node node_id data g)
  | PollCommands => snd (poll_commands g)
  | SendCommandToMesh node_id command => snd (send_command_to_mesh node_id command g)
  end.

Definition perform_all (ops : list op) (g : MeshGateway) : MeshGateway :=
  fold_left (fun g o => perform o g) ops g.

Inductive reachable : MeshGateway -> Prop :=
| reach_init : forall serial_port baud_rate backend_url gateway_token,
    reachable (init serial_port baud_rate backend_url gateway_token)
| reach_step : forall o g, reachable g -> reachable (perform o g).

End Gateway.

(** ** Observations on traces, and sample inputs *)

(** The state [g] after the further effects [evs]. *)
Definition after (g : MeshGateway) (evs : list event) : MeshGateway :=
  with_trace (trace g ++ evs)%list g.

(** The byte strings written to the serial port, in order. *)
Definition writes (t : list event) : list string :=
  flat_map (fun e => match e with Write d => [d] | _ => [] end) t.

(** The POST requests issued: URL, headers and body. *)
Definition posts (t : list event) : list (string * dict string * json) :=
  flat_map (fun e => match e with Post u h b _ => [(u, h, b)] | _ => [] end) t.

(** The device tokens of the GET requests issued. *)
Definition polled (t : list event) : list (option string) :=
  flat_map (fun e => match e with
                     | Get _ h _ => [dict_get "X-Device-Token" h]
                     | _ => []
                     end) t.

(** The calls to [register_node], by the node they were made for. *)
Definition registrations (t : list event) : list json :=
  flat_map (fun e => match e with
                     | Log WARNING (NodeNotRegistered n) => [n]
                     | _ => []
                     end) t.

(** What a forward without a usable token leaves in the trace. *)
Definition registration_attempt (node_id : json) (data : dict json) : list event :=
  [Log WARNING (NoTokenRegistering node_id);
   Log WARNING (NodeNotRegistered node_id);
   Log INFO (NodeInfo (get_default "system" (JObj []) data))].

(** The [headers] and [url] of [send_to_backend] and [poll_commands]. *)
Definition metrics_url (g : MeshGateway) : string := backend_url g ++ "/api/v1/metrics".
Definition metrics_headers (token : string) : dict string :=
  [("Content-Type", "application/json"); ("X-Device-Token", token)].
Definition pending_url (g : MeshGateway) : string :=
  backend_url g ++ "/api/v1/devices/commands/pending".
Definition pending_headers (g : MeshGateway) (token : string) : dict string :=
  [("Authorization", "Bearer " ++ gateway_token g); ("X-Device-Token", token)].

(** The frame that [send_command_to_mesh] writes for a command object. *)
Definition frame (node_id : Z) (command : dict json) : string :=
  dumps (JObj [("type", JStr "send");
               ("target", JInt node_id);
               ("data", JObj [("cmd", get "type" command);
                              ("value", get "payload" command);
                              ("cmd_id", get "id" command)])]) ++ newline.

(** Text with its apostrophes read as double quotes. *)
Definition dq (s : string) : string :=
  string_of_list_ascii
    (map (fun c => if Ascii.eqb c "'"%char then ascii_of_N 34 else c)
         (list_ascii_of_string s)).

(** A port that was opened and is still open. *)
Definition open_port : Serial :=
  {| port := DEFAULT_SERIAL_PORT; baudrate := DEFAULT_BAUD_RATE; timeout := 1;
     is_open := true |}.

(** A freshly constructed gateway. *)
Definition fresh : MeshGateway :=
  init DEFAULT_SERIAL_PORT DEFAULT_BAUD_RATE DEFAULT_BACKEND_URL "gw-secret".

(** A running gateway with an open port and the given provisioned tokens. *)
Definition provisioned (tokens : dict string) : MeshGateway :=
  with_node_tokens tokens (with_running true (with_serial (Some open_port) fresh)).

(** A world in which the backend answers every POST with [status], every
    GET with [resp], and the serial port yields [line] and takes writes. *)
Definition steady (status : Z) (resp : outcome Response) (line : string) : world :=
  {| post_answer := fun _ => Ok status;
     get_answer := fun _ => resp;
     open_answer := fun _ => Ok tt;
     readline_answer := fun _ => Ok line;
     write_answer := fun _ => Ok tt;
     clock := fun _ => 0 |}.

(** A world without a backend: every request fails in transport. *)
Definition offline : world :=
  {| post_answer := fun _ => Raised RequestException;
     get_answer := fun _ => Raised RequestException;
     open_answer := fun _ => Ok tt;
     readline_answer := fun _ => Ok "";
     write_answer := fun _ => Ok tt;
     clock := fun _ => 0 |}.

(** [repr] is never reached on the sample inputs. *)
Definition no_repr (v : json) : string := "".

(** A fragment of [json.loads]: the lines of the examples below. *)
Definition sample_loads (s : string) : outcome json :=
  if String.eqb s "[1, 2]" then Ok (JArr [JInt 1; JInt 2])
  else if String.eqb s "42" then Ok (JInt 42)
  else if String.eqb s "{}" then Ok (JObj [])
  else Raised JSONDecodeError.

(** The command of the reboot scenario. *)
Definition reboot_command : json :=
  JObj [("type", JStr "reboot"); ("payload", JNull); ("id", JStr "c1")].

(** The mesh entry of a telemetry payload is a block or is missing. *)
Definition mesh_block_or_absent (data : dict json) : Prop :=
  dict_get "mesh" data = None \/ exists m, dict_get "mesh" data = Some (JObj m).

(** The output fields that do not depend on the optional blocks. *)
Definition base_payload (data : dict json) : dict json :=
  [("node_name", get_default "node_name" (JStr "Unknown") data);
   ("temperature", get "temperature" data);
   ("humidity", get "humidity" data);
   ("dht_enabled", get_default "dht_enabled" (JBool true) data)].

Definition current_wifi (rssi : json) : json :=
  JObj [("ssid", JStr "mesh_network"); ("rssi", rssi); ("bssid", JStr "");
        ("ip", JStr ""); ("channel", JInt 6)].

Definition mesh_status (node_id node_count : json) : json :=
  JObj [("enabled", JBool true); ("running", JBool true);
        ("node_id", node_id); ("node_count", node_count)].

(** The optional [system] entry, copied when present. *)
Definition system_entry (data : dict json) : dict json :=
  match dict_get "system" data with
  | Some v => [("system", v)]
  | None => []
  end.

(** The node with key [k] has no entry in the token map of [g]. *)
Definition absent (k : string) (g : MeshGateway) : Prop :=
  dict_get k (node_tokens g) = None.

(** A computation that adds no entry to the token map, however it ends. *)
Definition adds_no_token {A : Type} (m : M A) : Prop :=
  forall g k, absent k g -> absent k (snd (m g)).

(** The frames of the command objects of a batch, in order. *)
Definition frames (node_id : Z) (commands : list json) : list string :=
  flat_map (fun c => match c with JObj d => [frame node_id d] | _ => [] end) commands.

(** The loop [for cmd in commands] of [poll_commands] for the node [key]. *)
Definition deliver (w : world) (key : string) (commands : list json) : M unit :=
  for_each commands
    (fun cmd => target <- int key ;; send_command_to_mesh w target cmd).

(** What delivery and polling leave alone. *)
Definition same_setup (g g' : MeshGateway) : Prop :=
  serial g' = serial g /\ node_tokens g' = node_tokens g
  /\ backend_url g' = backend_url g /\ gateway_token g' = gateway_token g.

(** A backend whose polls fail, if at all, in transport: a GET raises
    [RequestException] or is answered; an answer with status 200 has a body
    that [response.json()] rejects with [RequestException] or reads as a
    value that can be iterated. *)
Definition only_network_failures (w : world) : Prop :=
  forall h,
    match get_answer w h with
    | Raised e => e = RequestException
    | Ok r =>
        status_code r = 200 ->
        match json_ r with
        | Raised e => e = RequestException
        | Ok v => exists commands, iter v = Ok commands
        end
    end.

(** The keys of the token map read as integers. *)
Definition integer_keys (tokens : dict string) : Prop :=
  Forall (fun kv => exists n, int_of_str (fst kv) = Some n) tokens.

(** The GET that [poll_commands] sends for the node that holds [token]. *)
Definition poll_request (g : MeshGateway) (token : string) : event :=
  Get (pending_url g) (pending_headers g token) 5.

(** The commands that the answer to a poll hands to the loop
    [for cmd in commands]: the items of the body of an answer with status
    200, and none for any other answer. *)
Definition batch (answer : outcome Response) : list json :=
  match answer with
  | Ok r =>
      if status_code r =? 200
      then match json_ r with
           | Ok v => match iter v with Ok commands => commands | Raised _ => [] end
           | Raised _ => []
           end
      else []
  | Raised _ => []
  end.

(** The number that [int(node_id)] gives for a key of the token map. *)
Definition node_number (key : string) : Z :=
  match int_of_str key with Some n => n | None => 0 end.

(** The frames that the link takes for a batch: none while it is closed. *)
Definition relayed (g : MeshGateway) (key : string) (commands : list json)
  : list string :=
  if serial_closed g then [] else frames (node_number key) commands.

(** [cycle_trace w g tokens h new]: after the history [h], the events [new]
    are those of one poll cycle over [tokens].  Node by node, in the order
    of the map: the GET with the node's token, then events that hold no
    GET and whose writes are the frames, addressed to that node, of the
    commands that the answer to this very GET handed out. *)
Inductive cycle_trace (w : world) (g : MeshGateway)
  : dict string -> list event -> list event -> Prop :=
| cycle_end : forall h, cycle_trace w g [] h []
| cycle_poll : forall key token rest h body later,
    polled body = [] ->
    writes body
    = relayed g key (batch (get_answer w (h ++ [poll_request g token]))) ->
    cycle_trace w g rest (h ++ poll_request g token :: body) later ->
    cycle_trace w g ((key, token) :: rest) h
      (poll_request g token :: body ++ later).

Definition led_command : json :=
  JObj [("type", JStr "led"); ("payload", JInt 1); ("id", JStr "c2")].

(** A backend out of reach for the node that holds the token tok-3, with
    two commands waiting for any other node. *)
Definition flaky_backend (request : event) : outcome Response :=
  match request with
  | Get _ headers _ =>
      match dict_get "X-Device-Token" headers with
      | Some token =>
          if String.eqb token "tok-3" then Raised RequestException
          else Ok {| status_code := 200;
                     json_ := Ok (JArr [reboot_command; led_command]) |}
      | None => Raised RequestException
      end
  | _ => Raised RequestException
  end.

(** A world with that backend and a flaky port: the first write fails and
    the later ones succeed. *)
Definition flaky : world :=
  {| post_answer := fun _ => Raised RequestException;
     get_answer := fun h => flaky_backend (last h Now);
     open_answer := fun _ => Ok tt;
     readline_answer := fun _ => Ok "";
     write_answer := fun h =>
       if Nat.leb (length (writes h)) 1 then Raised SerialException else Ok tt;
     clock := fun _ => 0 |}.

(** The two frames for node 4 as the gateway writes them. *)
Definition node_4_frames : list string :=
  [(dq "{'type': 'send', 'target': 4, 'data': {'cmd': 'reboot', 'value': null, 'cmd_id': 'c1'}}"
    ++ newline)%string;
   (dq "{'type': 'send', 'target': 4, 'data': {'cmd': 'led', 'value': 1, 'cmd_id': 'c2'}}"
    ++ newline)%string].

(** The bytes of the reboot envelope as the gateway writes it, and the
    compact text without spaces after the separators. *)
Definition reboot_frame : string :=
  dq "{'type': 'send', 'target': 3, 'data': {'cmd': 'reboot', 'value': null, 'cmd_id': 'c1'}}"
  ++ newline.

Definition compact_reboot_frame : string :=
  dq "{'type':'send','target':3,'data':{'cmd':'reboot','value':null,'cmd_id':'c1'}}"
  ++ newline.

(** A telemetry payload with a mesh block, as a node sends it. *)
Definition sample_telemetry : dict json :=
  [("msg_type", JStr "metrics"); ("node_name", JStr "kitchen");
   ("temperature", JFloat "21.5"); ("humidity", JInt 40);
   ("mesh", JObj [("rssi", JInt (-60)); ("node_count", JInt 3)])].

(** ** Properties *)

(** *** Records and traces *)


Lemma after_nil : forall g, after g [] = g.
Proof.
  intros [sp br bu gt se ru bf nt st tr]. unfold after, with_trace. cbn.
  now rewrite app_nil_r.
Qed.

Lemma trace_after : forall g evs, trace (after g evs) = (trace g ++ evs)%list.
Proof. reflexivity. Qed.

Lemma emit_after : forall e g, emit e g = (Ok tt, after g [e]).
Proof. reflexivity. Qed.

Lemma writes_app : forall a b, writes (a ++ b) = (writes a ++ writes b)%list.
Proof. intros a b. unfold writes. apply flat_map_app. Qed.

Lemma posts_app : forall a b, posts (a ++ b) = (posts a ++ posts b)%list.
Proof. intros a b. unfold posts. apply flat_map_app. Qed.

Lemma polled_app : forall a b, polled (a ++ b) = (polled a ++ polled b)%list.
Proof. intros a b. unfold polled. apply flat_map_app. Qed.

Lemma registrations_app :
  forall a b, registrations (a ++ b) = (registrations a ++ registrations b)%list.
Proof. intros a b. unfold registrations. apply flat_map_app. Qed.

(** *** dict lemmas *)

Lemma dict_get_pop_same :
  forall (V : Type) (k : string) (d : dict V), dict_get k (dict_pop k d) = None.
Proof.
  intros V k d. induction d as [|[k' v] d IH]; cbn; [reflexivity|].
  destruct (String.eqb k k') eqn:E; cbn; [exact IH|].
  now rewrite E.
Qed.

Lemma dict_get_pop_none :
  forall (V : Type) (k k' : string) (d : dict V),
    dict_get k d = None -> dict_get k (dict_pop k' d) = None.
Proof.
  intros V k k' d. induction d as [|[k0 v] d IH]; cbn; [reflexivity|].
  destruct (String.eqb k k0) eqn:E; [discriminate|].
  intros H. destruct (String.eqb k' k0); cbn; [auto|].
  rewrite E. auto.
Qed.

Lemma dict_all_absent_nil :
  forall (V : Type) (d : dict V), (forall k, dict_get k d = None) -> d = [].
Proof.
  intros V [|[k v] d] H; [reflexivity|].
  specialize (H k). cbn in H. now rewrite String.eqb_refl in H.
Qed.

(** *** The payload transformation *)

Ltac trace_norm :=
  unfold after, with_trace, with_stats, with_node_tokens; cbn;
  repeat (rewrite <- app_assoc; cbn).

Lemma transform_metrics_without_mesh :
  forall data,
    dict_get "mesh" data = None ->
    transform_metrics data =
      Ok (base_payload data ++ system_entry data
          ++ [("mesh_status",
               mesh_status (get_default "node_id" (JInt 0) data) (JInt 0))])%list.
Proof.
  intros data Hm. unfold transform_metrics, dict_mem, system_entry, get, get_default.
  rewrite Hm. destruct (dict_get "system" data); reflexivity.
Qed.

Lemma transform_metrics_with_mesh :
  forall data m,
    dict_get "mesh" data = Some (JObj m) ->
    transform_metrics data =
      Ok (base_payload data ++ system_entry data
          ++ [("current_wifi", current_wifi (get_default "rssi" (JInt 0) m));
              ("mesh_status",
               mesh_status (get_default "node_id" (JInt 0) data)
                 (get_default "node_count" (JInt 0) m))])%list.
Proof.
  intros data m Hm. unfold transform_metrics, dict_mem, system_entry, get, get_default.
  rewrite Hm. destruct (dict_get "system" data); reflexivity.
Qed.

Lemma transform_metrics_mesh_not_a_block :
  forall data v,
    dict_get "mesh" data = Some v ->
    (forall m, v <> JObj m) ->
    transform_metrics data = Raised AttributeError.
Proof.
  intros data v Hm Hv. unfold transform_metrics, dict_mem, get.
  rewrite Hm. destruct v; try reflexivity. now destruct (Hv fields).
Qed.

Lemma transform_metrics_total :
  forall data, mesh_block_or_absent data -> exists p, transform_metrics data = Ok p.
Proof.
  intros data [H | [m H]].
  - rewrite (transform_metrics_without_mesh _ H). eauto.
  - rewrite (transform_metrics_with_mesh _ _ H). eauto.
Qed.

(** C1, as stated, fails: on the empty payload nothing is omitted but the
    two optional blocks; temperature and humidity are sent as null, the
    node name and the sensor flag as their defaults.  And a mesh entry
    that is not a block makes the transformation raise. *)
Lemma transform_metrics_fills_absent_fields :
  transform_metrics [] =
    Ok [("node_name", JStr "Unknown"); ("temperature", JNull); ("humidity", JNull);
        ("dht_enabled", JBool true);
        ("mesh_status", mesh_status (JInt 0) (JInt 0))]
  /\ transform_metrics [("mesh", JInt 5)] = Raised AttributeError.
Proof. split; reflexivity. Qed.

(** C1, amended: for a payload whose mesh entry is a block or missing, the
    transformation returns; each source field that is present is copied to
    its destination (node name, temperature, humidity, sensor flag and
    system block under the same key, the node id and the mesh node count
    into the mesh status, the mesh rssi into the current-WiFi block); of
    the absent fields only the system block and the current-WiFi block are
    omitted, temperature and humidity become null, the node name
    ["Unknown"], the sensor flag true, and node id, rssi and node count 0. *)
Theorem transform_metrics_field_mapping :
  forall data,
    mesh_block_or_absent data ->
    exists p,
      transform_metrics data = Ok p
      /\ (forall k v, In k ["node_name"; "temperature"; "humidity"; "dht_enabled";
                           "system"] ->
                      dict_get k data = Some v -> dict_get k p = Some v)
      /\ (forall v, dict_get "node_id" data = Some v ->
            exists c, dict_get "mesh_status" p = Some (mesh_status v c))
      /\ (forall m, dict_get "mesh" data = Some (JObj m) ->
            (forall v, dict_get "rssi" m = Some v ->
               dict_get "current_wifi" p = Some (current_wifi v))
            /\ (forall v, dict_get "node_count" m = Some v ->
                  exists n, dict_get "mesh_status" p = Some (mesh_status n v))
            /\ (dict_get "rssi" m = None ->
                  dict_get "current_wifi" p = Some (current_wifi (JInt 0)))
            /\ (dict_get "node_count" m = None ->
                  exists n, dict_get "mesh_status" p = Some (mesh_status n (JInt 0))))
      /\ (dict_get "system" data = None -> dict_get "system" p = None)
      /\ (dict_get "mesh" data = None ->
            dict_get "current_wifi" p = None
            /\ exists n, dict_get "mesh_status" p = Some (mesh_status n (JInt 0)))
      /\ (dict_get "temperature" data = None -> dict_get "temperature" p = Some JNull)
      /\ (dict_get "humidity" data = None -> dict_get "humidity" p = Some JNull)
      /\ (dict_get "node_name" data = None ->
            dict_get "node_name" p = Some (JStr "Unknown"))
      /\ (dict_get "dht_enabled" data = None ->
            dict_get "dht_enabled" p = Some (JBool true))
      /\ (dict_get "node_id" data = None ->
            exists c, dict_get "mesh_status" p = Some (mesh_status (JInt 0) c)).
Proof.
  intros data Hmesh.
  assert (Hbase : forall tail k v,
            In k ["node_name"; "temperature"; "humidity"; "dht_enabled"; "system"] ->
            dict_get k data = Some v ->
            dict_get k (base_payload data ++ system_entry data ++ tail)%list = Some v).
  { intros tail k v Hin Hk. unfold base_payload, system_entry, get, get_default.
    cbn in Hin.
    destruct Hin as [<- | [<- | [<- | [<- | [<- | []]]]]]; rewrite Hk; reflexivity. }
  destruct Hmesh as [Hm | [m Hm]].
  - exists (base_payload data ++ system_entry data
            ++ [("mesh_status",
                 mesh_status (get_default "node_id" (JInt 0) data) (JInt 0))])%list.
    split; [now apply transform_metrics_without_mesh|].
    split; [apply Hbase|].
    unfold base_payload, system_entry, get, get_default.
    repeat split; try (intros; congruence).
    + intros v Hv. rewrite Hv. destruct (dict_get "system" data); cbn; eauto.
    + intros Hs. now rewrite Hs.
    + destruct (dict_get "system" data); reflexivity.
    + destruct (dict_get "system" data); cbn; eauto.
    + intros H; now rewrite H.
    + intros H; now rewrite H.
    + intros H; now rewrite H.
    + intros H; now rewrite H.
    + intros H; rewrite H. destruct (dict_get "system" data); cbn; eauto.
  - exists (base_payload data ++ system_entry data
            ++ [("current_wifi", current_wifi (get_default "rssi" (JInt 0) m));
                ("mesh_status",
                 mesh_status (get_default "node_id" (JInt 0) data)
                   (get_default "node_count" (JInt 0) m))])%list.
    split; [now apply transform_metrics_with_mesh|].
    split; [apply Hbase|].
    unfold base_payload, system_entry, get, get_default.
    split.
    { intros v Hv. rewrite Hv. destruct (dict_get "system" data); cbn; eauto. }
    split.
    { intros m' Hm'. rewrite Hm in Hm'. injection Hm' as <-.
      repeat split.
      - intros v Hv. rewrite Hv. destruct (dict_get "system" data); reflexivity.
      - intros v Hv. rewrite Hv. destruct (dict_get "system" data); cbn; eauto.
      - intros Hv. rewrite Hv. destruct (dict_get "system" data); reflexivity.
      - intros Hv. rewrite Hv. destruct (dict_get "system" data); cbn; eauto. }
    repeat split; try (intros; congruence).
    + intros Hs. now rewrite Hs.
    + intros H; now rewrite H.
    + intros H; now rewrite H.
    + intros H; now rewrite H.
    + intros H; now rewrite H.
    + intros H; rewrite H. destruct (dict_get "system" data); cbn; eauto.
Qed.

(** C6, as stated, fails: a payload whose mesh entry is not a block gets
    no transformed payload at all, hence no mesh-status block. *)
Lemma transform_metrics_raises_on_mesh_text :
  transform_metrics [("node_id", JInt 7); ("mesh", JStr "up")] = Raised AttributeError.
Proof. reflexivity. Qed.

(** C6, amended: for a payload whose mesh entry is a block or missing, the
    transformation returns a payload with a mesh-status block whose enabled
    and running flags are true and which carries the payload's node id
    (default 0) and the mesh node count (default 0); with a mesh block the
    payload has the current-WiFi block with SSID ["mesh_network"], the mesh
    rssi (default 0), empty bssid and ip and channel 6; without a mesh
    entry it has no current-WiFi block. *)
Theorem transform_metrics_wifi_and_mesh_status :
  forall data,
    mesh_block_or_absent data ->
    exists p,
      transform_metrics data = Ok p
      /\ (forall m, dict_get "mesh" data = Some (JObj m) ->
            dict_get "current_wifi" p
              = Some (JObj [("ssid", JStr "mesh_network");
                            ("rssi", get_default "rssi" (JInt 0) m);
                            ("bssid", JStr ""); ("ip", JStr "");
                            ("channel", JInt 6)])
            /\ dict_get "mesh_status" p
                 = Some (JObj [("enabled", JBool true); ("running", JBool true);
                               ("node_id", get_default "node_id" (JInt 0) data);
                               ("node_count", get_default "node_count" (JInt 0) m)]))
      /\ (dict_get "mesh" data = None ->
            dict_get "current_wifi" p = None
            /\ dict_get "mesh_status" p
                 = Some (JObj [("enabled", JBool true); ("running", JBool true);
                               ("node_id", get_default "node_id" (JInt 0) data);
                               ("node_count", JInt 0)])).
Proof.
  intros data [Hm | [m Hm]].
  - eexists. split; [exact (transform_metrics_without_mesh _ Hm)|].
    split; [intros m' Hm'; congruence|].
    intros _. unfold base_payload, system_entry.
    destruct (dict_get "system" data); split; reflexivity.
  - eexists. split; [exact (transform_metrics_with_mesh _ _ Hm)|].
    split; [|intros Hm'; congruence].
    intros m' Hm'. rewrite Hm in Hm'. injection Hm' as <-.
    unfold base_payload, system_entry.
    destruct (dict_get "system" data); split; reflexivity.
Qed.

(** *** The backend forwarder *)

Section Forwarding.

Variable py_repr : json -> string.
Variable w : world.

Lemma register_node_returns_none :
  forall node_id data g,
    register_node node_id data g
    = (Ok None, after g [Log WARNING (NodeNotRegistered node_id);
                         Log INFO (NodeInfo (get_default "system" (JObj []) data))]).
Proof. intros. unfold register_node, bind, log, emit, modify, ret. trace_norm. reflexivity. Qed.

(** Without a usable token the forward only logs and tries to register. *)
Lemma send_to_backend_no_token :
  forall node_id data g,
    falsy (dict_get (str py_repr node_id) (node_tokens g)) = true ->
    send_to_backend py_repr w node_id data g
    = (Ok false, after g (registration_attempt node_id data)).
Proof.
  intros n d g H. unfold send_to_backend, try_except, bind, get_self.
  rewrite H. cbn. trace_norm. reflexivity.
Qed.

(** With a token, the answer to the POST decides. *)
Lemma send_to_backend_posts :
  forall node_id data g token payload,
    dict_get (str py_repr node_id) (node_tokens g) = Some token ->
    token <> "" ->
    transform_metrics data = Ok payload ->
    let request := Post (metrics_url g) (metrics_headers token) (JObj payload) 10 in
    send_to_backend py_repr w node_id data g
    = match post_answer w (trace g ++ [request]) with
      | Ok status =>
          if status =? 200
          then (Ok true, with_stats (count_sent (stats g))
                           (after g [request; Log DEBUG (MetricsSent node_id)]))
          else if status =? 401
          then (Ok false,
                with_node_tokens (dict_pop (str py_repr node_id) (node_tokens g))
                  (after g [request; Log WARNING (InvalidToken node_id)]))
          else (Ok false, after g [request; Log ERROR (BackendError status)])
      | Raised RequestException =>
          (Ok false, with_stats (count_error (stats g))
                       (after g [request; Log ERROR HTTPError]))
      | Raised e => (Raised e, after g [request])
      end.
Proof.
  intros n d g token p Htok Hne Hp request. subst request.
  unfold send_to_backend, try_except, bind, get_self. rewrite Htok.
  apply String.eqb_neq in Hne. cbn. rewrite Hne. cbn. unfold lift. rewrite Hp. cbn.
  unfold metrics_url, metrics_headers.
  destruct (post_answer w _) as [status | e]; cbn.
  - destruct (status =? 200); [trace_norm; reflexivity|].
    destruct (status =? 401); trace_norm; reflexivity.
  - destruct e; trace_norm; reflexivity.
Qed.

(** A payload that cannot be transformed escapes the forwarder: only
    transport failures are handled there. *)
Lemma send_to_backend_bad_mesh :
  forall node_id data g token,
    dict_get (str py_repr node_id) (node_tokens g) = Some token ->
    token <> "" ->
    transform_metrics data = Raised AttributeError ->
    send_to_backend py_repr w node_id data g = (Raised AttributeError, g).
Proof.
  intros n d g token Htok Hne Hp.
  unfold send_to_backend, try_except, bind, get_self. rewrite Htok.
  apply String.eqb_neq in Hne. cbn. rewrite Hne. cbn. unfold lift. now rewrite Hp.
Qed.

(** The two parts of C2 that the code has: a missing token is not counted
    as an error, a transport failure is. *)
Lemma send_to_backend_missing_token_not_counted :
  forall node_id data g,
    dict_get (str py_repr node_id) (node_tokens g) = None ->
    let r := send_to_backend py_repr w node_id data g in
    fst r = Ok false /\ errors (stats (snd r)) = errors (stats g).
Proof.
  intros n d g H r. subst r. rewrite send_to_backend_no_token; [split; reflexivity|].
  now rewrite H.
Qed.

Lemma send_to_backend_transport_failure_counted :
  forall node_id data g token payload,
    dict_get (str py_repr node_id) (node_tokens g) = Some token ->
    token <> "" ->
    transform_metrics data = Ok payload ->
    post_answer w (trace g ++ [Post (metrics_url g) (metrics_headers token)
                                 (JObj payload) 10])
      = Raised RequestException ->
    let r := send_to_backend py_repr w node_id data g in
    fst r = Ok false /\ errors (stats (snd r)) = errors (stats g) + 1.
Proof.
  intros n d g token p Htok Hne Hp Hpost r. subst r.
  rewrite (send_to_backend_posts _ _ _ _ _ Htok Hne Hp). rewrite Hpost.
  split; reflexivity.
Qed.

(** What the code does on any other status: the message is dropped and
    logged, the error counter stays. *)
Lemma send_to_backend_other_status_not_counted :
  forall node_id data g token payload status,
    dict_get (str py_repr node_id) (node_tokens g) = Some token ->
    token <> "" ->
    transform_metrics data = Ok payload ->
    post_answer w (trace g ++ [Post (metrics_url g) (metrics_headers token)
                                 (JObj payload) 10])
      = Ok status ->
    status <> 200 -> status <> 401 ->
    let r := send_to_backend py_repr w node_id data g in
    fst r = Ok false /\ errors (stats (snd r)) = errors (stats g).
Proof.
  intros n d g token p status Htok Hne Hp Hpost H200 H401 r. subst r.
  rewrite (send_to_backend_posts _ _ _ _ _ Htok Hne Hp). rewrite Hpost.
  apply Z.eqb_neq in H200, H401. rewrite H200, H401. split; reflexivity.
Qed.

(** C7: [register_node] returns [None] for every node id and payload, and a
    forward for a node without an entry in the token map returns [False]
    having issued no POST: its only effects are the three log lines of the
    registration attempt. *)
Theorem unregistered_forward_dropped :
  forall node_id data g,
    fst (register_node node_id data g) = Ok None
    /\ (dict_get (str py_repr node_id) (node_tokens g) = None ->
        let r := send_to_backend py_repr w node_id data g in
        fst r = Ok false
        /\ snd r = after g (registration_attempt node_id data)
        /\ posts (trace (snd r)) = posts (trace g)).
Proof.
  intros n d g. split.
  - now rewrite register_node_returns_none.
  - intros H r. subst r. rewrite send_to_backend_no_token by now rewrite H.
    cbn [fst snd]. repeat split.
    rewrite trace_after, posts_app. cbn. now rewrite app_nil_r.
Qed.

End Forwarding.

(** C2 at a failing input: node 7 holds a token and the backend answers
    the POST with status 500.  The message is dropped and logged at error
    level, and the error counter is left as it was. *)
Theorem backend_error_status_not_counted :
  let g := provisioned [("7", "tok-7")] in
  let r := send_to_backend no_repr (steady 500 (Raised RequestException) "") (JInt 7)
             [("msg_type", JStr "metrics"); ("temperature", JFloat "21.5")] g in
  fst r = Ok false
  /\ errors (stats (snd r)) = errors (stats g)
  /\ registrations (trace (snd r)) = []
  /\ exists request, trace (snd r) = [request; Log ERROR (BackendError 500)].
Proof.
  cbv zeta. repeat split. eexists. reflexivity.
Qed.

(** *** The token map never grows *)

Lemma adds_no_token_ret : forall (A : Type) (a : A), adds_no_token (ret a).
Proof. intros A a g k H. exact H. Qed.

Lemma adds_no_token_raise : forall (A : Type) (e : exn), adds_no_token (@raise A e).
Proof. intros A e g k H. exact H. Qed.

Lemma adds_no_token_lift : forall (A : Type) (o : outcome A), adds_no_token (lift o).
Proof. intros A o g k H. exact H. Qed.

Lemma adds_no_token_get_self : adds_no_token get_self.
Proof. intros g k H. exact H. Qed.

Lemma adds_no_token_modify :
  forall f, (forall g, node_tokens (f g) = node_tokens g) -> adds_no_token (modify f).
Proof. intros f Hf g k H. unfold absent in *. cbn. now rewrite Hf. Qed.

Lemma adds_no_token_pop :
  forall key,
    adds_no_token
      (modify (fun g => with_node_tokens (dict_pop key (node_tokens g)) g)).
Proof. intros key g k H. unfold absent in *. cbn. now apply dict_get_pop_none. Qed.

Lemma adds_no_token_bind :
  forall (A B : Type) (m : M A) (k : A -> M B),
    adds_no_token m -> (forall a, adds_no_token (k a)) -> adds_no_token (bind m k).
Proof.
  intros A B m k Hm Hk g key H. unfold bind.
  specialize (Hm g key H). destruct (m g) as [[a | e] g']; cbn in *.
  - now apply Hk.
  - exact Hm.
Qed.

Lemma adds_no_token_try_except :
  forall (A : Type) (body : M A) (handler : exn -> option (M A)),
    adds_no_token body ->
    (forall e h, handler e = Some h -> adds_no_token h) ->
    adds_no_token (try_except body handler).
Proof.
  intros A body handler Hb Hh g key H. unfold try_except.
  specialize (Hb g key H). destruct (body g) as [[a | e] g']; cbn in *; [exact Hb|].
  destruct (handler e) as [h|] eqn:E; [|exact Hb].
  now apply (Hh e h E).
Qed.

Lemma adds_no_token_for_each :
  forall (X : Type) (l : list X) (body : X -> M unit),
    (forall x, adds_no_token (body x)) -> adds_no_token (for_each l body).
Proof.
  intros X l body Hb. induction l as [|x l IH]; cbn.
  - apply adds_no_token_ret.
  - apply adds_no_token_bind; auto.
Qed.

Lemma adds_no_token_emit : forall e, adds_no_token (emit e).
Proof. intros e. now apply adds_no_token_modify. Qed.

Lemma adds_no_token_update_stats : forall f, adds_no_token (update_stats f).
Proof. intros f. now apply adds_no_token_modify. Qed.

Lemma adds_no_token_with_serial : forall v, adds_no_token (modify (with_serial v)).
Proof. intros v. now apply adds_no_token_modify. Qed.

Lemma adds_no_token_with_running : forall v, adds_no_token (modify (with_running v)).
Proof. intros v. now apply adds_no_token_modify. Qed.

Create HintDb tokens.
#[local] Hint Resolve adds_no_token_ret adds_no_token_raise adds_no_token_lift
  adds_no_token_get_self adds_no_token_pop adds_no_token_emit
  adds_no_token_update_stats adds_no_token_with_serial adds_no_token_with_running
  : tokens.

(** Walks through a method body: sequencing, handlers, loops and branches. *)
Ltac no_token_step :=
  match goal with
  | |- adds_no_token (bind _ _) => apply adds_no_token_bind; [|intros ?]
  | |- adds_no_token (try_except _ _) =>
      apply adds_no_token_try_except;
      [|let e := fresh "e" in let h := fresh "h" in let E := fresh "E" in
        intros e h E; destruct e; inversion E; subst; clear E]
  | |- adds_no_token (for_each _ _) => apply adds_no_token_for_each; intros ?
  | |- adds_no_token (log _ _) => apply adds_no_token_emit
  | |- adds_no_token (sleep _) => apply adds_no_token_emit
  | |- adds_no_token (if ?c then _ else _) => destruct c
  | |- adds_no_token (match ?x with _ => _ end) => destruct x
  | |- adds_no_token (let (_, _) := ?x in _) => destruct x
  | |- adds_no_token _ => solve [auto with tokens]
  end.

Ltac no_token := repeat no_token_step.

Section TokenMap.

Variable json_loads : string -> outcome json.
Variable py_repr : json -> string.
Variable w : world.

Lemma register_node_adds_no_token :
  forall node_id data, adds_no_token (register_node node_id data).
Proof. intros. unfold register_node. no_token. Qed.

Lemma connect_serial_adds_no_token : adds_no_token (connect_serial w).
Proof. unfold connect_serial. no_token. Qed.

Lemma disconnect_serial_adds_no_token : adds_no_token disconnect_serial.
Proof. unfold disconnect_serial. no_token. Qed.

Lemma send_to_backend_adds_no_token :
  forall node_id data, adds_no_token (send_to_backend py_repr w node_id data).
Proof.
  intros. unfold send_to_backend, requests_post.
  pose proof register_node_adds_no_token. no_token.
Qed.

Lemma send_command_to_mesh_adds_no_token :
  forall node_id command, adds_no_token (send_command_to_mesh w node_id command).
Proof. intros. unfold send_command_to_mesh, serial_write. no_token. Qed.

Lemma poll_node_adds_no_token : forall kv, adds_no_token (poll_node w kv).
Proof.
  intros [node_id token]. unfold poll_node, requests_get, int.
  pose proof send_command_to_mesh_adds_no_token. no_token.
Qed.

Lemma poll_commands_adds_no_token : adds_no_token (poll_commands w).
Proof.
  unfold poll_commands. pose proof poll_node_adds_no_token. no_token.
Qed.

Lemma process_message_adds_no_token :
  forall msg, adds_no_token (process_message py_repr w msg).
Proof.
  intros. unfold process_message. pose proof send_to_backend_adds_no_token. no_token.
Qed.

Lemma read_serial_once_adds_no_token :
  adds_no_token (read_serial_once json_loads py_repr w).
Proof.
  unfold read_serial_once, decode_and_dispatch, serial_readline.
  pose proof process_message_adds_no_token.
  pose proof connect_serial_adds_no_token.
  pose proof disconnect_serial_adds_no_token.
  no_token.
Qed.

Lemma read_serial_adds_no_token :
  forall fuel, adds_no_token (read_serial json_loads py_repr w fuel).
Proof.
  induction fuel as [|n IH]; cbn [read_serial];
    pose proof read_serial_once_adds_no_token; no_token.
Qed.

Lemma command_poller_once_adds_no_token : adds_no_token (command_poller_once w).
Proof.
  unfold command_poller_once. pose proof poll_commands_adds_no_token. no_token.
Qed.

Lemma command_poller_adds_no_token :
  forall fuel, adds_no_token (command_poller w fuel).
Proof.
  induction fuel as [|n IH]; cbn [command_poller];
    pose proof command_poller_once_adds_no_token; no_token.
Qed.

Lemma print_stats_adds_no_token : adds_no_token (print_stats w).
Proof. unfold print_stats, now. no_token. Qed.

Lemma run_begin_adds_no_token : adds_no_token (run_begin w).
Proof.
  unfold run_begin, now. pose proof connect_serial_adds_no_token. no_token.
Qed.

Lemma run_end_adds_no_token : adds_no_token (run_end w).
Proof.
  unfold run_end.
  pose proof disconnect_serial_adds_no_token. pose proof print_stats_adds_no_token.
  no_token.
Qed.

Lemma signal_handler_adds_no_token : adds_no_token signal_handler.
Proof. unfold signal_handler. no_token. Qed.

(** No operation of the gateway gives a token to a node that has none. *)
Lemma perform_keeps_absent :
  forall o g k, absent k g -> absent k (perform json_loads py_repr w o g).
Proof.
  intros o g k H. destruct o; cbn [perform].
  - now apply run_begin_adds_no_token.
  - now apply run_end_adds_no_token.
  - now apply signal_handler_adds_no_token.
  - now apply connect_serial_adds_no_token.
  - now apply disconnect_serial_adds_no_token.
  - now apply read_serial_once_adds_no_token.
  - now apply command_poller_once_adds_no_token.
  - now apply process_message_adds_no_token.
  - now apply send_to_backend_adds_no_token.
  - now apply register_node_adds_no_token.
  - now apply poll_commands_adds_no_token.
  - now apply send_command_to_mesh_adds_no_token.
Qed.

Lemma perform_all_keeps_absent :
  forall ops g k, absent k g -> absent k (perform_all json_loads py_repr w ops g).
Proof.
  induction ops as [|o ops IH]; intros g k H; cbn; [exact H|].
  apply IH. now apply perform_keeps_absent.
Qed.

Lemma reachable_all_absent :
  forall g, reachable json_loads py_repr w g -> forall k, absent k g.
Proof.
  intros g Hr. induction Hr as [sp br bu gt | o g Hr IH]; intros k.
  - reflexivity.
  - apply perform_keeps_absent, IH.
Qed.

End TokenMap.

(** C3: when the forward for node N is answered with status 401, the call
    returns [False] and N has no token afterwards.  Whatever the gateway
    does next, under any world, N still has no token, and the next forward
    for N makes a registration attempt and issues no POST: the removed
    token is not used again, and no operation puts one back. *)
Theorem invalid_token_forces_registration :
  forall json_loads py_repr w node_id data g token payload,
    dict_get (str py_repr node_id) (node_tokens g) = Some token ->
    token <> "" ->
    transform_metrics data = Ok payload ->
    post_answer w (trace g ++ [Post (metrics_url g) (metrics_headers token)
                                 (JObj payload) 10]) = Ok 401 ->
    let r := send_to_backend py_repr w node_id data g in
    fst r = Ok false
    /\ absent (str py_repr node_id) (snd r)
    /\ forall w' ops data',
         let g' := perform_all json_loads py_repr w' ops (snd r) in
         let r' := send_to_backend py_repr w' node_id data' g' in
         absent (str py_repr node_id) g'
         /\ fst r' = Ok false
         /\ registrations (trace (snd r')) = (registrations (trace g') ++ [node_id])%list
         /\ posts (trace (snd r')) = posts (trace g').
Proof.
  intros json_loads py_repr w n d g token p Htok Hne Hp Hpost r. subst r.
  rewrite (send_to_backend_posts _ _ _ _ _ _ _ Htok Hne Hp), Hpost.
  cbn [fst snd Z.eqb Pos.eqb].
  assert (Hgone : absent (str py_repr n)
            (with_node_tokens (dict_pop (str py_repr n) (node_tokens g))
               (after g [Post (metrics_url g) (metrics_headers token) (JObj p) 10;
                         Log WARNING (InvalidToken n)]))).
  { unfold absent. cbn. apply dict_get_pop_same. }
  split; [reflexivity|]. split; [exact Hgone|].
  intros w' ops d'. cbv zeta.
  set (g' := perform_all json_loads py_repr w' ops _).
  assert (Hstill : absent (str py_repr n) g').
  { subst g'. now apply perform_all_keeps_absent. }
  split; [exact Hstill|].
  rewrite send_to_backend_no_token by (unfold absent in Hstill; now rewrite Hstill).
  cbn [fst snd]. rewrite trace_after, registrations_app, posts_app. cbn.
  now rewrite app_nil_r.
Qed.

(** C9: no operation gives a token to a node that has none, and
    [register_node] returns [None]; so in every state reached from a newly
    constructed gateway the token map is empty, every forward returns
    [False] after a registration attempt and no POST, [poll_commands]
    does nothing at all, and a pass of the poller thread only sleeps. *)
Theorem token_map_stays_empty :
  forall json_loads py_repr w g,
    reachable json_loads py_repr w g ->
    (forall o g0 k, absent k g0 -> absent k (perform json_loads py_repr w o g0))
    /\ (forall node_id data g0, fst (register_node node_id data g0) = Ok None)
    /\ node_tokens g = []
    /\ (forall node_id data,
          let r := send_to_backend py_repr w node_id data g in
          fst r = Ok false
          /\ snd r = after g (registration_attempt node_id data)
          /\ posts (trace (snd r)) = posts (trace g))
    /\ poll_commands w g = (Ok tt, g)
    /\ command_poller_once w g = (Ok tt, after g [Sleep COMMAND_POLL_INTERVAL]).
Proof.
  intros json_loads py_repr w g Hr.
  assert (Hempty : node_tokens g = []).
  { apply dict_all_absent_nil. intros k.
    exact (reachable_all_absent json_loads py_repr w g Hr k). }
  split; [intros o g0 k; apply perform_keeps_absent|].
  split; [intros; now rewrite register_node_returns_none|].
  split; [exact Hempty|].
  split; [|split].
  - intros n d r. subst r.
    rewrite send_to_backend_no_token by now rewrite Hempty.
    cbn [fst snd]. repeat split.
    rewrite trace_after, posts_app. cbn. now rewrite app_nil_r.
  - unfold poll_commands, bind, get_self. now rewrite Hempty.
  - unfold command_poller_once, bind, sleep, emit, modify, get_self.
    cbn. now rewrite Hempty.
Qed.

(** *** Command delivery *)

(** C10: with no serial object, or with one that is not open,
    [send_command_to_mesh] returns at once and the gateway is exactly as
    before: nothing is written or logged and no counter moves. *)
Theorem send_command_to_mesh_link_down :
  forall w node_id command g,
    serial g = None \/ (exists s, serial g = Some s /\ is_open s = false) ->
    send_command_to_mesh w node_id command g = (Ok tt, g)
    /\ writes (trace (snd (send_command_to_mesh w node_id command g)))
       = writes (trace g)
    /\ commands_sent_to_mesh (stats (snd (send_command_to_mesh w node_id command g)))
       = commands_sent_to_mesh (stats g).
Proof.
  intros w n c g H.
  assert (E : serial_closed g = true).
  { unfold serial_closed. destruct H as [-> | [s [-> Hs]]]; [reflexivity|].
    now rewrite Hs. }
  assert (R : send_command_to_mesh w n c g = (Ok tt, g)).
  { unfold send_command_to_mesh, bind, get_self. now rewrite E. }
  rewrite R. repeat split.
Qed.

(** *** The read loop *)

Section Reading.

Variable json_loads : string -> outcome json.
Variable py_repr : json -> string.
Variable w : world.









End Reading.


(** *** The command poller *)

Section Polling.

Variable w : world.

Lemma same_setup_refl : forall g, same_setup g g.
Proof. intros g. repeat split. Qed.

Lemma same_setup_trans :
  forall g1 g2 g3, same_setup g1 g2 -> same_setup g2 g3 -> same_setup g1 g3.
Proof.
  intros g1 g2 g3 (A1 & A2 & A3 & A4) (B1 & B2 & B3 & B4).
  repeat split; congruence.
Qed.

Lemma same_setup_closed :
  forall g g', same_setup g g' -> serial_closed g' = serial_closed g.
Proof. intros g g' (H & _). unfold serial_closed. now rewrite H. Qed.

(** A command object on an open link: one write of its frame; the counter
    moves only when the write succeeds, and no failure leaves the call. *)
Lemma send_command_to_mesh_object :
  forall node_id c g,
    serial_closed g = false ->
    send_command_to_mesh w node_id (JObj c) g
    = match write_answer w (trace g ++ [Write (frame node_id c)]) with
      | Ok _ =>
          (Ok tt, with_stats (count_command (stats g))
                    (after g [Write (frame node_id c);
                              Log INFO (CommandSent node_id (get "type" c))]))
      | Raised _ =>
          (Ok tt, after g [Write (frame node_id c); Log ERROR FailedToSendCommand])
      end.
Proof.
  intros n c g Hopen.
  unfold send_command_to_mesh, bind at 1, get_self. rewrite Hopen.
  unfold try_except, bind, lift, serial_write, emit, modify, get_self.
  cbn -[dumps String.append].
  change (dumps _ ++ newline) with (frame n c).
  change (get_default "type" JNull c) with (get "type" c).
  destruct (write_answer w _) as [[] | e]; unfold after, log, emit, modify;
    cbn -[frame]; rewrite <- app_assoc; reflexivity.
Qed.

(** A command that is not an object has no [get]: it is logged and skipped. *)
Lemma send_command_to_mesh_not_an_object :
  forall node_id command g,
    serial_closed g = false ->
    (forall c, command <> JObj c) ->
    send_command_to_mesh w node_id command g
    = (Ok tt, after g [Log ERROR FailedToSendCommand]).
Proof.
  intros n c g Hopen Hc.
  unfold send_command_to_mesh, bind at 1, get_self. rewrite Hopen.
  destruct c; try reflexivity. now destruct (Hc fields).
Qed.

(** Whatever the command and whatever the port does, delivery of one
    command ends normally. *)
Lemma send_command_to_mesh_returns :
  forall node_id command g,
    exists g',
      send_command_to_mesh w node_id command g = (Ok tt, g')
      /\ same_setup g g'
      /\ polled (trace g') = polled (trace g)
      /\ writes (trace g')
         = (writes (trace g)
            ++ if serial_closed g then [] else frames node_id [command])%list.
Proof.
  intros n c g. destruct (serial_closed g) eqn:Hopen.
  - exists g. unfold send_command_to_mesh, bind, get_self. rewrite Hopen.
    repeat split. now rewrite app_nil_r.
  - destruct c as [| b | z | r | s | items | c];
      try (rewrite send_command_to_mesh_not_an_object by (assumption || discriminate);
           eexists; split; [reflexivity|]; split; [repeat split|];
           rewrite trace_after, polled_app, writes_app; cbn;
           now rewrite !app_nil_r).
    rewrite send_command_to_mesh_object by assumption.
    destruct (write_answer w _) as [[] | e];
      (eexists; split; [reflexivity|]; split; [repeat split|];
       cbn [trace with_stats]; rewrite trace_after, polled_app, writes_app; cbn;
       now rewrite !app_nil_r).
Qed.

(** Every command of a batch is delivered in turn: each command object gets
    its write, whatever became of the writes before it. *)
Lemma deliver_all :
  forall key node_id commands g,
    int_of_str key = Some node_id ->
    exists g',
      deliver w key commands g = (Ok tt, g')
      /\ same_setup g g'
      /\ polled (trace g') = polled (trace g)
      /\ writes (trace g')
         = (writes (trace g)
            ++ if serial_closed g then [] else frames node_id commands)%list.
Proof.
  intros key n commands. induction commands as [|c cs IH]; intros g Hkey.
  - exists g. split; [reflexivity|]. split; [apply same_setup_refl|].
    split; [reflexivity|]. destruct (serial_closed g); now rewrite app_nil_r.
  - destruct (send_command_to_mesh_returns n c g) as (g1 & Hc & Hs1 & Hp1 & Hw1).
    destruct (IH g1 Hkey) as (g2 & Hcs & Hs2 & Hp2 & Hw2).
    exists g2. split.
    { assert (Hint : forall g0, int key g0 = (Ok n, g0)).
      { intros g0. unfold int. now rewrite Hkey. }
      unfold deliver in *. cbn [for_each]. unfold bind at 1. cbv beta.
      unfold bind at 1. rewrite Hint, Hc. exact Hcs. }
    split; [eapply same_setup_trans; eassumption|].
    split; [congruence|].
    rewrite Hw2, Hw1, (same_setup_closed _ _ Hs1).
    destruct (serial_closed g); rewrite <- app_assoc; [reflexivity|].
    unfold frames. cbn [flat_map]. now rewrite app_nil_r.
Qed.

(** A poll that fails in transport is logged, and that is all. *)
Lemma poll_node_network_failure :
  forall key token g,
    get_answer w (trace g ++ [Get (pending_url g) (pending_headers g token) 5])
      = Raised RequestException ->
    poll_node w (key, token) g
    = (Ok tt, after g [Get (pending_url g) (pending_headers g token) 5;
                       Log DEBUG CommandPollFailed]).
Proof.
  intros key token g Hget.
  unfold poll_node, try_except, bind, requests_get, emit, modify, lift, get_self.
  cbn -[String.append]. unfold pending_url, pending_headers in Hget. rewrite Hget.
  unfold log, emit, modify, after, pending_url, pending_headers.
  cbn -[String.append]. rewrite <- app_assoc. reflexivity.
Qed.

(** The poll of one node when the answer is a batch of commands. *)
Lemma poll_node_batch :
  forall key token g r v commands,
    get_answer w (trace g ++ [Get (pending_url g) (pending_headers g token) 5]) = Ok r ->
    status_code r = 200 ->
    json_ r = Ok v ->
    iter v = Ok commands ->
    poll_node w (key, token) g
    = match deliver w key commands
              (after g [Get (pending_url g) (pending_headers g token) 5]) with
      | (Raised RequestException, g') => (Ok tt, after g' [Log DEBUG CommandPollFailed])
      | other => other
      end.
Proof.
  intros key token g r v commands Hget Hst Hj Hit.
  unfold poll_node, try_except, bind at 1 2 3, requests_get, emit, modify, lift, get_self.
  cbn -[String.append]. unfold pending_url, pending_headers in Hget.
  rewrite Hget, Hst. cbn -[String.append].
  rewrite Hj, Hit.
  fold (deliver w key commands).
  unfold after at 1, pending_url, pending_headers.
  destruct (deliver w key commands _) as [[[] | e] g']; [reflexivity|].
  destruct e; reflexivity.
Qed.

Lemma poll_node_other_status :
  forall key token g r,
    get_answer w (trace g ++ [Get (pending_url g) (pending_headers g token) 5]) = Ok r ->
    status_code r <> 200 ->
    poll_node w (key, token) g
    = (Ok tt, after g [Get (pending_url g) (pending_headers g token) 5]).
Proof.
  intros key token g r Hget Hst.
  unfold poll_node, try_except, bind, requests_get, emit, modify, lift, get_self.
  cbn -[String.append]. unfold pending_url, pending_headers in Hget.
  apply Z.eqb_neq in Hst. rewrite Hget, Hst. reflexivity.
Qed.

Lemma poll_node_body_rejected :
  forall key token g r,
    get_answer w (trace g ++ [Get (pending_url g) (pending_headers g token) 5]) = Ok r ->
    status_code r = 200 ->
    json_ r = Raised RequestException ->
    poll_node w (key, token) g
    = (Ok tt, after g [Get (pending_url g) (pending_headers g token) 5;
                       Log DEBUG CommandPollFailed]).
Proof.
  intros key token g r Hget Hst Hj.
  unfold poll_node, try_except, bind, requests_get, emit, modify, lift, get_self.
  cbn -[String.append]. unfold pending_url, pending_headers in Hget.
  rewrite Hget, Hst. cbn -[String.append]. rewrite Hj.
  unfold log, emit, modify, after, pending_url, pending_headers.
  cbn -[String.append]. rewrite <- app_assoc. reflexivity.
Qed.

(** The events of the delivery of one command: no GET, and the frame of
    a command object when the link is open. *)
Lemma send_command_to_mesh_trace :
  forall node_id command g,
    exists g' body,
      send_command_to_mesh w node_id command g = (Ok tt, g')
      /\ same_setup g g'
      /\ trace g' = (trace g ++ body)%list
      /\ polled body = []
      /\ writes body = if serial_closed g then [] else frames node_id [command].
Proof.
  intros n c g. destruct (serial_closed g) eqn:Hopen.
  - exists g, []. unfold send_command_to_mesh, bind, get_self. rewrite Hopen.
    repeat split. now rewrite app_nil_r.
  - destruct c as [| b | z | r | s | items | c];
      try (rewrite send_command_to_mesh_not_an_object by (assumption || discriminate);
           eexists; eexists; split; [reflexivity|]; split; [repeat split|];
           split; [apply trace_after|]; split; reflexivity).
    rewrite send_command_to_mesh_object by assumption.
    destruct (write_answer w _) as [[] | e];
      (eexists; eexists; split; [reflexivity|]; split; [repeat split|];
       split; [cbn [trace with_stats]; apply trace_after|]; split; reflexivity).
Qed.

(** The events of the loop over a batch. *)
Lemma deliver_trace :
  forall key node_id commands g,
    int_of_str key = Some node_id ->
    exists g' body,
      deliver w key commands g = (Ok tt, g')
      /\ same_setup g g'
      /\ trace g' = (trace g ++ body)%list
      /\ polled body = []
      /\ writes body = if serial_closed g then [] else frames node_id commands.
Proof.
  intros key n commands. induction commands as [|c cs IH]; intros g Hkey.
  - exists g, []. split; [reflexivity|]. split; [apply same_setup_refl|].
    split; [now rewrite app_nil_r|]. split; [reflexivity|].
    now destruct (serial_closed g).
  - destruct (send_command_to_mesh_trace n c g) as (g1 & b1 & Hc & Hs1 & Ht1 & Hp1 & Hw1).
    destruct (IH g1 Hkey) as (g2 & b2 & Hcs & Hs2 & Ht2 & Hp2 & Hw2).
    exists g2, (b1 ++ b2)%list. split.
    { assert (Hint : forall g0, int key g0 = (Ok n, g0)).
      { intros g0. unfold int. now rewrite Hkey. }
      unfold deliver in *. cbn [for_each]. unfold bind at 1. cbv beta.
      unfold bind at 1. rewrite Hint, Hc. exact Hcs. }
    split; [eapply same_setup_trans; eassumption|].
    split; [now rewrite Ht2, Ht1, app_assoc|].
    split; [now rewrite polled_app, Hp1, Hp2|].
    rewrite writes_app, Hw1, Hw2, (same_setup_closed _ _ Hs1).
    destruct (serial_closed g); [reflexivity|].
    unfold frames. cbn [flat_map]. now rewrite app_nil_r.
Qed.

(** When polls fail only in transport, the poll of one node ends normally:
    it sends the GET with that node's token and then writes the frames of
    the commands that the answer carried. *)
Lemma poll_node_trace :
  forall key node_id token g,
    only_network_failures w ->
    int_of_str key = Some node_id ->
    exists g' body,
      poll_node w (key, token) g = (Ok tt, g')
      /\ same_setup g g'
      /\ trace g' = (trace g ++ poll_request g token :: body)%list
      /\ polled body = []
      /\ writes body
         = relayed g key (batch (get_answer w (trace g ++ [poll_request g token]))).
Proof.
  intros key n token g Hw Hkey.
  unfold relayed, node_number. rewrite Hkey.
  specialize (Hw (trace g ++ [poll_request g token])%list).
  unfold poll_request in *.
  set (request := Get (pending_url g) (pending_headers g token) 5) in *.
  destruct (get_answer w (trace g ++ [request])) as [r | e] eqn:Hget.
  - destruct (Z.eq_dec (status_code r) 200) as [Hst | Hst].
    + specialize (Hw Hst). cbn [batch].
      assert (Hst' : (status_code r =? 200) = true) by now apply Z.eqb_eq.
      rewrite Hst'. destruct (json_ r) as [v | e] eqn:Hj.
      * destruct Hw as [commands Hit]. rewrite Hit.
        rewrite (poll_node_batch key token g r v commands Hget Hst Hj Hit).
        destruct (deliver_trace key n commands (after g [request]) Hkey)
          as (g' & body & Hd & Hs & Ht & Hp & Hwr).
        fold request. rewrite Hd. exists g', body. split; [reflexivity|].
        split; [eapply same_setup_trans; [|exact Hs]; repeat split|].
        split; [rewrite Ht, trace_after, <- app_assoc; reflexivity|].
        split; [exact Hp | exact Hwr].
      * subst e. rewrite (poll_node_body_rejected key token g r Hget Hst Hj).
        exists (after g [request; Log DEBUG CommandPollFailed]),
               [Log DEBUG CommandPollFailed].
        split; [reflexivity|]. split; [repeat split|].
        split; [apply trace_after|]. split; [reflexivity | now destruct (serial_closed g)].
    + rewrite (poll_node_other_status key token g r Hget Hst).
      exists (after g [request]), [].
      split; [reflexivity|]. split; [repeat split|].
      split; [apply trace_after|]. split; [reflexivity|].
      cbn [batch]. apply Z.eqb_neq in Hst. rewrite Hst. now destruct (serial_closed g).
  - subst e. rewrite (poll_node_network_failure key token g Hget).
    exists (after g [request; Log DEBUG CommandPollFailed]),
           [Log DEBUG CommandPollFailed].
    split; [reflexivity|]. split; [repeat split|].
    split; [apply trace_after|]. split; [reflexivity | now destruct (serial_closed g)].
Qed.

Lemma same_setup_poll_request :
  forall g g' token, same_setup g g' -> poll_request g' token = poll_request g token.
Proof.
  intros g g' token (_ & _ & Hu & Ht).
  unfold poll_request, pending_url, pending_headers. now rewrite Hu, Ht.
Qed.

Lemma same_setup_relayed :
  forall g g' key commands,
    same_setup g g' -> relayed g' key commands = relayed g key commands.
Proof.
  intros g g' key commands Hs. unfold relayed.
  now rewrite (same_setup_closed _ _ Hs).
Qed.

(** The events of the loop over the token map. *)
Lemma poll_all_trace :
  forall g tokens g0,
    only_network_failures w ->
    integer_keys tokens ->
    same_setup g g0 ->
    exists g' new,
      for_each tokens (poll_node w) g0 = (Ok tt, g')
      /\ same_setup g0 g'
      /\ trace g' = (trace g0 ++ new)%list
      /\ cycle_trace w g tokens (trace g0) new.
Proof.
  intros g tokens. induction tokens as [|[key token] rest IH]; intros g0 Hw Hkeys Hs.
  - exists g0, []. split; [reflexivity|]. split; [apply same_setup_refl|].
    split; [now rewrite app_nil_r | constructor].
  - inversion Hkeys as [|kv l [n Hkey] Hrest]; subst.
    destruct (poll_node_trace key n token g0 Hw Hkey)
      as (g1 & body & H1 & Hs1 & Ht1 & Hp1 & Hw1).
    rewrite (same_setup_poll_request _ _ token Hs) in Ht1, Hw1.
    rewrite (same_setup_relayed _ _ key _ Hs) in Hw1.
    destruct (IH g1 Hw Hrest (same_setup_trans _ _ _ Hs Hs1))
      as (g2 & later & H2 & Hs2 & Ht2 & Hc2).
    exists g2, (poll_request g token :: body ++ later)%list. split.
    { cbn [for_each]. unfold bind at 1. rewrite H1. exact H2. }
    split; [eapply same_setup_trans; eassumption|].
    split.
    { rewrite Ht2, Ht1, <- app_assoc. reflexivity. }
    rewrite Ht1 in Hc2. now constructor.
Qed.

(** What a cycle polled, and what it wrote when the answer to a poll
    depends on the request alone. *)
Lemma cycle_trace_polled :
  forall g tokens h new,
    cycle_trace w g tokens h new ->
    polled new = map (fun kv => Some (snd kv)) tokens.
Proof.
  intros g tokens h new Hc. induction Hc as [|key token rest h body later Hp Hw Hc IH].
  - reflexivity.
  - change (poll_request g token :: body ++ later)%list
      with ([poll_request g token] ++ body ++ later)%list.
    rewrite !polled_app, Hp, IH. reflexivity.
Qed.

Lemma cycle_trace_writes :
  forall backend g tokens h new,
    (forall h e, get_answer w (h ++ [e]) = backend e) ->
    cycle_trace w g tokens h new ->
    writes new
    = flat_map (fun kv => relayed g (fst kv) (batch (backend (poll_request g (snd kv)))))
        tokens.
Proof.
  intros backend g tokens h new Hb Hc.
  induction Hc as [|key token rest h body later Hp Hw Hc IH].
  - reflexivity.
  - change (poll_request g token :: body ++ later)%list
      with ([poll_request g token] ++ body ++ later)%list.
    rewrite !writes_app, Hw, IH, Hb. reflexivity.
Qed.

(** C8: a failure inside one poll cycle stays where it happened.  A poll
    that fails in transport leaves the rest of the cycle as it would have
    been: the remaining nodes are polled from the state the failure left.
    A write that fails leaves its call ending normally, so the loop over
    the batch goes on.  When polls fail only in transport, the cycle ends
    normally, and its events are, node by node in the order of the map,
    the GET with the node's token followed by the writes of the frames of
    every command object that the answer to this GET carried, whatever
    became of the polls and the writes before.  For a backend whose answer
    depends on the request alone, the writes of the cycle are the frames
    of all the batches, one batch after the other. *)
Theorem poll_cycle_isolation :
  (forall key token rest g,
     get_answer w (trace g ++ [Get (pending_url g) (pending_headers g token) 5])
       = Raised RequestException ->
     for_each ((key, token) :: rest) (poll_node w) g
     = for_each rest (poll_node w)
         (after g [Get (pending_url g) (pending_headers g token) 5;
                   Log DEBUG CommandPollFailed]))
  /\ (forall node_id c g e,
        serial_closed g = false ->
        write_answer w (trace g ++ [Write (frame node_id c)]) = Raised e ->
        send_command_to_mesh w node_id (JObj c) g
        = (Ok tt, after g [Write (frame node_id c); Log ERROR FailedToSendCommand]))
  /\ (forall g,
        only_network_failures w ->
        integer_keys (node_tokens g) ->
        exists g' new,
          poll_commands w g = (Ok tt, g')
          /\ trace g' = (trace g ++ new)%list
          /\ cycle_trace w g (node_tokens g) (trace g) new
          /\ polled (trace g')
             = (polled (trace g)
                ++ map (fun kv => Some (snd kv)) (node_tokens g))%list)
  /\ (forall g backend,
        only_network_failures w ->
        integer_keys (node_tokens g) ->
        (forall h e, get_answer w (h ++ [e]) = backend e) ->
        exists g',
          poll_commands w g = (Ok tt, g')
          /\ polled (trace g')
             = (polled (trace g)
                ++ map (fun kv => Some (snd kv)) (node_tokens g))%list
          /\ writes (trace g')
             = (writes (trace g)
                ++ flat_map
                     (fun kv =>
                        relayed g (fst kv)
                          (batch (backend (poll_request g (snd kv)))))
                     (node_tokens g))%list).
Proof.
  split; [|split; [|split]].
  - intros key token rest g Hget. cbn [for_each]. unfold bind at 1.
    now rewrite (poll_node_network_failure key token g Hget).
  - intros n c g e Hopen Hwrite.
    rewrite send_command_to_mesh_object by assumption. now rewrite Hwrite.
  - intros g Hw Hkeys. unfold poll_commands, bind, get_self.
    destruct (poll_all_trace g (node_tokens g) g Hw Hkeys (same_setup_refl g))
      as (g' & new & H & _ & Ht & Hc).
    exists g', new. split; [exact H|]. split; [exact Ht|]. split; [exact Hc|].
    now rewrite Ht, polled_app, (cycle_trace_polled _ _ _ _ Hc).
  - intros g backend Hw Hkeys Hb. unfold poll_commands, bind, get_self.
    destruct (poll_all_trace g (node_tokens g) g Hw Hkeys (same_setup_refl g))
      as (g' & new & H & _ & Ht & Hc).
    exists g'. split; [exact H|]. split.
    + now rewrite Ht, polled_app, (cycle_trace_polled _ _ _ _ Hc).
    + now rewrite Ht, writes_app, (cycle_trace_writes backend _ _ _ _ Hb Hc).
Qed.

(** C5, amended: with the link open and node 3 the one registered node, a
    poll answered with the single reboot command makes exactly one serial
    write, and its bytes are the envelope as [json.dumps] prints it, with a
    space after each colon and comma, followed by one newline. *)
Theorem reboot_poll_writes_one_frame :
  forall g token,
    serial_closed g = false ->
    node_tokens g = [("3", token)] ->
    get_answer w (trace g ++ [Get (pending_url g) (pending_headers g token) 5])
      = Ok {| status_code := 200; json_ := Ok (JArr [reboot_command]) |} ->
    fst (poll_commands w g) = Ok tt
    /\ writes (trace (snd (poll_commands w g)))
       = (writes (trace g)
          ++ [reboot_frame])%list.
Proof.
  intros g token Hopen Htok Hget.
  destruct (deliver_all "3" 3 [reboot_command]
              (after g [Get (pending_url g) (pending_headers g token) 5]) eq_refl)
    as (g' & Hd & _ & _ & Hwr).
  assert (Hpoll : poll_commands w g = (Ok tt, g')).
  { unfold poll_commands, bind at 1, get_self. rewrite Htok. cbn [for_each].
    unfold bind at 1.
    rewrite (poll_node_batch "3" token g _ _ [reboot_command] Hget
               eq_refl eq_refl eq_refl).
    now rewrite Hd. }
  rewrite Hpoll. cbn [fst snd]. split; [reflexivity|].
  rewrite Hwr.
  change (serial_closed (after g _)) with (serial_closed g). rewrite Hopen.
  rewrite trace_after, writes_app. cbn [writes flat_map]. rewrite app_nil_r.
  reflexivity.
Qed.

End Polling.

(** C5, as stated, fails: in the scenario the one write is not the compact
    text of the claim; the bytes written have the spaces of the default
    separators. *)
Lemma reboot_frame_is_not_compact :
  let g := provisioned [("3", "tok-3")] in
  let w := steady 200 (Ok {| status_code := 200;
                             json_ := Ok (JArr [reboot_command]) |}) "" in
  writes (trace (snd (poll_commands w g)))
  = [reboot_frame]
  /\ writes (trace (snd (poll_commands w g))) <> [compact_reboot_frame].
Proof.
  cbv zeta. split; [reflexivity|]. vm_compute. discriminate.
Qed.

(** *** The theorems at sample inputs *)

Lemma transform_metrics_field_mapping_witness :
  mesh_block_or_absent sample_telemetry
  /\ exists p,
       transform_metrics sample_telemetry = Ok p
       /\ dict_get "temperature" p = Some (JFloat "21.5")
       /\ dict_get "system" p = None
       /\ dict_get "dht_enabled" p = Some (JBool true).
Proof.
  assert (Hmesh : mesh_block_or_absent sample_telemetry).
  { right. eexists. reflexivity. }
  split; [exact Hmesh|].
  destruct (transform_metrics_field_mapping sample_telemetry Hmesh)
    as (p & Hp & Hcopy & _ & _ & Hsys & _ & _ & _ & _ & Hdht & _).
  exists p. split; [exact Hp|]. split; [|split].
  - apply Hcopy; [cbn; tauto | reflexivity].
  - apply Hsys. reflexivity.
  - apply Hdht. reflexivity.
Defined.

Lemma transform_metrics_wifi_and_mesh_status_witness :
  mesh_block_or_absent sample_telemetry
  /\ exists p,
       transform_metrics sample_telemetry = Ok p
       /\ dict_get "current_wifi" p = Some (current_wifi (JInt (-60)))
       /\ dict_get "mesh_status" p = Some (mesh_status (JInt 0) (JInt 3)).
Proof.
  assert (Hmesh : mesh_block_or_absent sample_telemetry).
  { right. eexists. reflexivity. }
  split; [exact Hmesh|].
  destruct (transform_metrics_wifi_and_mesh_status sample_telemetry Hmesh)
    as (p & Hp & Hwith & _).
  exists p. split; [exact Hp|].
  exact (Hwith [("rssi", JInt (-60)); ("node_count", JInt 3)] eq_refl).
Defined.

Lemma unregistered_forward_dropped_witness :
  dict_get (str no_repr (JInt 7)) (node_tokens fresh) = None
  /\ fst (send_to_backend no_repr offline (JInt 7) sample_telemetry fresh) = Ok false
  /\ posts (trace (snd (send_to_backend no_repr offline (JInt 7) sample_telemetry fresh)))
     = [].
Proof.
  split; [reflexivity|].
  destruct (unregistered_forward_dropped no_repr offline (JInt 7) sample_telemetry fresh)
    as [_ H].
  destruct (H eq_refl) as (Hdrop & _ & Hposts).
  split; [exact Hdrop | exact Hposts].
Defined.

Lemma invalid_token_forces_registration_witness :
  let g := provisioned [("7", "tok-7")] in
  let w := steady 401 (Raised RequestException) "" in
  let r := send_to_backend no_repr w (JInt 7) sample_telemetry g in
  dict_get (str no_repr (JInt 7)) (node_tokens g) = Some "tok-7"
  /\ fst r = Ok false
  /\ absent "7" (snd r)
  /\ registrations
       (trace (snd (send_to_backend no_repr offline (JInt 7) sample_telemetry
                      (perform_all sample_loads no_repr offline
                         [ReadSerialOnce; CommandPollerOnce] (snd r)))))
     = [JInt 7].
Proof.
  cbv zeta. split; [reflexivity|].
  assert (Hne : "tok-7" <> "") by discriminate.
  destruct (invalid_token_forces_registration sample_loads no_repr
              (steady 401 (Raised RequestException) "") (JInt 7) sample_telemetry
              (provisioned [("7", "tok-7")]) "tok-7" _ eq_refl Hne eq_refl eq_refl)
    as (Hdrop & Hgone & Hnext).
  split; [exact Hdrop|]. split; [exact Hgone|].
  destruct (Hnext offline [ReadSerialOnce; CommandPollerOnce] sample_telemetry)
    as (_ & _ & Hreg & _).
  exact Hreg.
Defined.

Lemma token_map_stays_empty_witness :
  let w := steady 200 (Raised RequestException) "{}" in
  let g := perform sample_loads no_repr w ReadSerialOnce
             (perform sample_loads no_repr w RunBegin fresh) in
  reachable sample_loads no_repr w g
  /\ node_tokens g = []
  /\ fst (send_to_backend no_repr w (JInt 7) sample_telemetry g) = Ok false
  /\ poll_commands w g = (Ok tt, g).
Proof.
  cbv zeta.
  assert (Hr : reachable sample_loads no_repr (steady 200 (Raised RequestException) "{}")
                 (perform sample_loads no_repr (steady 200 (Raised RequestException) "{}")
                    ReadSerialOnce
                    (perform sample_loads no_repr
                       (steady 200 (Raised RequestException) "{}") RunBegin fresh))).
  { apply reach_step, reach_step. apply reach_init. }
  split; [exact Hr|].
  destruct (token_map_stays_empty _ _ _ _ Hr) as (_ & _ & Hempty & Hsend & Hpoll & _).
  split; [exact Hempty|]. split; [|exact Hpoll].
  exact (proj1 (Hsend (JInt 7) sample_telemetry)).
Defined.

Lemma send_command_to_mesh_link_down_witness :
  serial fresh = None
  /\ send_command_to_mesh offline 3 reboot_command fresh = (Ok tt, fresh).
Proof.
  split; [reflexivity|].
  exact (proj1 (send_command_to_mesh_link_down offline 3 reboot_command fresh
                  (or_introl eq_refl))).
Defined.


Lemma flaky_only_network_failures : only_network_failures flaky.
Proof.
  intros h. unfold flaky. cbn [get_answer]. unfold flaky_backend.
  destruct (last h Now); try reflexivity.
  destruct (dict_get _ _); [|reflexivity].
  destruct (String.eqb _ _); [reflexivity|].
  intros _. cbn. eexists. reflexivity.
Defined.

Lemma flaky_answers_by_request :
  forall h e, get_answer flaky (h ++ [e]) = flaky_backend e.
Proof. intros h e. cbn [flaky get_answer]. now rewrite last_last. Defined.

Lemma poll_cycle_isolation_witness :
  let g := provisioned [("3", "tok-3"); ("4", "tok-4")] in
  only_network_failures flaky
  /\ integer_keys (node_tokens g)
  /\ (forall h e, get_answer flaky (h ++ [e]) = flaky_backend e)
  /\ exists g',
       poll_commands flaky g = (Ok tt, g')
       /\ polled (trace g') = [Some "tok-3"; Some "tok-4"]
       /\ writes (trace g') = node_4_frames.
Proof.
  cbv zeta.
  assert (Hkeys : integer_keys (node_tokens (provisioned [("3", "tok-3"); ("4", "tok-4")]))).
  { repeat constructor; eexists; reflexivity. }
  split; [exact flaky_only_network_failures|]. split; [exact Hkeys|].
  split; [exact flaky_answers_by_request|].
  destruct (poll_cycle_isolation flaky) as (_ & _ & _ & Hcycle).
  destruct (Hcycle (provisioned [("3", "tok-3"); ("4", "tok-4")]) flaky_backend
              flaky_only_network_failures Hkeys flaky_answers_by_request)
    as (g' & Hpoll & Hpolled & Hwrites).
  exists g'. split; [exact Hpoll|]. split; [exact Hpolled | exact Hwrites].
Defined.

Lemma reboot_poll_writes_one_frame_witness :
  let g := provisioned [("3", "tok-3")] in
  let w := steady 200 (Ok {| status_code := 200;
                             json_ := Ok (JArr [reboot_command]) |}) "" in
  serial_closed g = false
  /\ node_tokens g = [("3", "tok-3")]
  /\ fst (poll_commands w g) = Ok tt
  /\ writes (trace (snd (poll_commands w g))) = [reboot_frame].
Proof.
  cbv zeta. split; [reflexivity|]. split; [reflexivity|].
  exact (reboot_poll_writes_one_frame
           (steady 200 (Ok {| status_code := 200;
                              json_ := Ok (JArr [reboot_command]) |}) "")
           (provisioned [("3", "tok-3")]) "tok-3" eq_refl eq_refl eq_refl).
Defined.
